(** * LIX: the bidding-record query service (src/main.py)

    A shallow embedding of the filter / sort / paginate engine, of the PNCP
    normaliser and of the statistics endpoint, with the properties the
    specification states about them.

    Conventions of the embedding

    - A Python [float] is a rational or [+inf] (the only non-finite value the
      source writes, [float('inf')]); NaN and [-inf] are not modelled.
    - A Python [str] is a [string] of UTF-8 bytes; byte-wise lexicographic
      order coincides with Python's code-point order.  [str.lower] and
      [str.upper] belong to the Python runtime, not to the repository: they
      are taken through the class [CaseMap], with the ASCII mapping as the
      instance used to evaluate the code on concrete data.
    - A record of the collection is a Python dict that always carries the
      keys read with [l["..."]]; the key read with [l.get("valor_estimado", d)]
      may be missing, hence an [option].
    - [created_at] / [updated_at] hold wall-clock readings ([datetime.now()]);
      nothing below reads them and they are left out of the records. *)

From Stdlib Require Import String Ascii Bool ZArith QArith Lia Permutation.
From Stdlib Require Import Sorted List.
Import ListNotations.
Open Scope string_scope.
Open Scope Z_scope.

Set Implicit Arguments.

(** ** Python runtime pieces *)

Module Py.

(** [str.lower] / [str.upper]. *)
Class CaseMap := {
  lower : string -> string;
  upper : string -> string;
  lower_empty : lower "" = "";
  upper_empty : upper "" = ""
}.

Definition ascii_lower_char (c : ascii) : ascii :=
  let n := nat_of_ascii c in
  if (Nat.leb 65 n && Nat.leb n 90)%bool then ascii_of_nat (n + 32) else c.

Definition ascii_upper_char (c : ascii) : ascii :=
  let n := nat_of_ascii c in
  if (Nat.leb 97 n && Nat.leb n 122)%bool then ascii_of_nat (n - 32) else c.

Fixpoint map_string (f : ascii -> ascii) (s : string) : string :=
  match s with
  | EmptyString => EmptyString
  | String c s' => String (f c) (map_string f s')
  end.

(** The case mapping restricted to the letters A-Z / a-z; it agrees with
    Python's on every string without other cased characters. *)
#[export] Instance ascii_case : CaseMap := {
  lower := map_string ascii_lower_char;
  upper := map_string ascii_upper_char;
  lower_empty := eq_refl;
  upper_empty := eq_refl
}.

(** [sub in s] on strings. *)
Fixpoint str_in (sub s : string) : bool :=
  if String.prefix sub s then true
  else match s with
       | EmptyString => false
       | String _ s' => str_in sub s'
       end.

(** [x in xs] on lists, by the elements' [==]. *)
Definition list_in {A} (eqb : A -> A -> bool) (x : A) (xs : list A) : bool :=
  existsb (eqb x) xs.

(** Truthiness of a list / of a string: non-empty. *)
Definition truthy_list {A} (o : option (list A)) : bool :=
  match o with Some (_ :: _) => true | _ => false end.

Definition truthy_str (o : option string) : bool :=
  match o with Some (String _ _) => true | _ => false end.

Definition is_some {A} (o : option A) : bool :=
  match o with Some _ => true | None => false end.

(** Index normalisation of a slice bound on a sequence of length [n]. *)
Definition clamp_index (n i : Z) : Z :=
  if i <? 0 then Z.max 0 (i + n) else Z.min i n.

(** [l[start:stop]]. *)
Definition slice {A} (l : list A) (start stop : Z) : list A :=
  let n := Z.of_nat (length l) in
  let a := clamp_index n start in
  let b := clamp_index n stop in
  firstn (Z.to_nat (b - a)) (skipn (Z.to_nat a) l).

(** [len(l)] *)
Definition len {A} (l : list A) : Z := Z.of_nat (length l).

(** *** floats *)

Inductive float := Fin (q : Q) | Inf.

Definition float_leb (x y : float) : bool :=
  match x, y with
  | Fin a, Fin b => Qle_bool a b
  | Fin _, Inf => true
  | Inf, Fin _ => false
  | Inf, Inf => true
  end.

Definition float_ltb (x y : float) : bool := negb (float_leb y x).

Definition float_add (x y : float) : float :=
  match x, y with
  | Fin a, Fin b => Fin (Qred (a + b))
  | _, _ => Inf
  end.

Definition of_Z (z : Z) : float := Fin (inject_Z z).

(** [sum(xs)]: a left fold from [0]. *)
Definition sum (xs : list float) : float := fold_left float_add xs (of_Z 0).

(** *** [list.sort(key=..., reverse=...)]

    The sort is stable and only uses [<] on the keys; with [reverse] the
    elements come out in descending key order, equal keys still in their
    original order (CPython reverses, sorts, reverses). *)
Section Sort.
Variables (A K : Type) (ltb : K -> K -> bool) (key : A -> K).

Fixpoint insert (x : A) (l : list A) : list A :=
    match l with
    | [] => [x]
    | y :: l' => if ltb (key y) (key x) then y :: insert x l' else x :: l
    end.

Definition stable_sort (l : list A) : list A := fold_right insert [] l.

Definition sort (reverse : bool) (l : list A) : list A :=
    if reverse then rev (stable_sort (rev l)) else stable_sort l.
End Sort.

(** [<] on strings. *)
Definition str_ltb (a b : string) : bool :=
  match String.compare a b with Lt => true | _ => false end.

End Py.

Import Py.

(** ** Data model (main.py, lines 17-91) *)

Inductive TipoLicitacao :=
  CONVITE | TOMADA_PRECOS | CONCORRENCIA | PREGAO | CONCURSO | LEILAO | RDC
| CONSULTA_PUBLICA.

Inductive StatusLicitacao :=
  ABERTA | EM_ANDAMENTO | ENCERRADA | SUSPENSA | CANCELADA.

Inductive UF :=
  AC | AL | AP | AM | BA | CE | DF | ES | GO | MA | MT | MS | MG | PA | PB | PR
| PE | PI | RJ | RN | RS | RO | RR | SC | SP | SE | TO.

Scheme Equality for TipoLicitacao.
Scheme Equality for StatusLicitacao.
Scheme Equality for UF.

(** The [.value] of the string enums. *)
Definition tipo_value (t : TipoLicitacao) : string :=
  match t with
  | CONVITE => "convite" | TOMADA_PRECOS => "tomada_precos"
  | CONCORRENCIA => "concorrencia" | PREGAO => "pregao"
  | CONCURSO => "concurso" | LEILAO => "leilao" | RDC => "rdc"
  | CONSULTA_PUBLICA => "consulta_publica"
  end.

Definition status_value (s : StatusLicitacao) : string :=
  match s with
  | ABERTA => "aberta" | EM_ANDAMENTO => "em_andamento"
  | ENCERRADA => "encerrada" | SUSPENSA => "suspensa"
  | CANCELADA => "cancelada"
  end.

Definition uf_value (u : UF) : string :=
  match u with
  | AC => "AC" | AL => "AL" | AP => "AP" | AM => "AM" | BA => "BA"
  | CE => "CE" | DF => "DF" | ES => "ES" | GO => "GO" | MA => "MA"
  | MT => "MT" | MS => "MS" | MG => "MG" | PA => "PA" | PB => "PB"
  | PR => "PR" | PE => "PE" | PI => "PI" | RJ => "RJ" | RN => "RN"
  | RS => "RS" | RO => "RO" | RR => "RR" | SC => "SC" | SP => "SP"
  | SE => "SE" | TO => "TO"
  end.

(** [datetime.date], ordered as the triple (year, month, day). *)
Record date := Date { year : Z; month : Z; day : Z }.

Definition date_leb (a b : date) : bool :=
  (year a <? year b)
  || ((year a =? year b)
      && ((month a <? month b)
          || ((month a =? month b) && (day a <=? day b)))).

Definition date_ltb (a b : date) : bool := negb (date_leb b a).

(** A record of the collection: the dict literals of [MOCK_LICITACOES]. *)
Module Licitacao.
Record t := Make {
  id : Z;
  numero : string;
  tipo : TipoLicitacao;
  objeto : string;
  orgao : string;
  status : StatusLicitacao;
  valor_estimado : option float;   (* [None]: the key is missing *)
  data_abertura : date;
  data_encerramento : option date;
  uf : UF;
  cidade : string;
  modalidade_participacao : option string;
  link_edital : option string
}.
End Licitacao.

(** [FiltrosLicitacao]: every criterion optional. *)
Module Filtros.
Record t := Make {
  tipos : option (list TipoLicitacao);
  status : option (list StatusLicitacao);
  ufs : option (list UF);
  cidades : option (list string);
  valor_min : option float;
  valor_max : option float;
  data_abertura_inicio : option date;
  data_abertura_fim : option date;
  texto_busca : option string
}.

(** No criterion given. *)
Definition vazio : t :=
  Make None None None None None None None None None.
End Filtros.

(** [d.get(k, default)] once the lookup of [k] is known. *)
Definition get_or {A} (o : option A) (default : A) : A :=
  match o with Some v => v | None => default end.

(** ** The filter engine (main.py, lines 364-428) *)

Section Engine.
Context {CM : CaseMap}.

Definition filtrar_licitacoes
    (licitacoes : list Licitacao.t)
    (tipos : option (list TipoLicitacao))
    (status : option (list StatusLicitacao))
    (ufs : option (list UF))
    (cidades : option (list string))
    (valor_min valor_max : option float)
    (data_abertura_inicio data_abertura_fim : option date)
    (texto_busca : option string)
    (limite offset : Z) : list Licitacao.t * Z :=
  let resultado := licitacoes in
  (* if tipos: *)
  let resultado :=
    match tipos with
    | Some ((_ :: _) as tipos) =>
        filter (fun l => list_in TipoLicitacao_beq (Licitacao.tipo l) tipos)
               resultado
    | _ => resultado
    end in
  (* if status: *)
  let resultado :=
    match status with
    | Some ((_ :: _) as status) =>
        filter (fun l => list_in StatusLicitacao_beq (Licitacao.status l) status)
               resultado
    | _ => resultado
    end in
  (* if ufs: *)
  let resultado :=
    match ufs with
    | Some ((_ :: _) as ufs) =>
        filter (fun l => list_in UF_beq (Licitacao.uf l) ufs) resultado
    | _ => resultado
    end in
  (* if cidades: *)
  let resultado :=
    match cidades with
    | Some ((_ :: _) as cidades) =>
        let cidades_lower := map lower cidades in
        filter (fun l => list_in String.eqb (lower (Licitacao.cidade l))
                                 cidades_lower)
               resultado
    | _ => resultado
    end in
  (* if valor_min is not None: *)
  let resultado :=
    match valor_min with
    | Some valor_min =>
        filter (fun l => float_leb valor_min
                           (get_or (Licitacao.valor_estimado l) (of_Z 0)))
               resultado
    | None => resultado
    end in
  (* if valor_max is not None: *)
  let resultado :=
    match valor_max with
    | Some valor_max =>
        filter (fun l => float_leb (get_or (Licitacao.valor_estimado l) Inf)
                                   valor_max)
               resultado
    | None => resultado
    end in
  (* if data_abertura_inicio: (a date is always truthy) *)
  let resultado :=
    match data_abertura_inicio with
    | Some inicio =>
        filter (fun l => date_leb inicio (Licitacao.data_abertura l)) resultado
    | None => resultado
    end in
  (* if data_abertura_fim: *)
  let resultado :=
    match data_abertura_fim with
    | Some fim =>
        filter (fun l => date_leb (Licitacao.data_abertura l) fim) resultado
    | None => resultado
    end in
  (* if texto_busca: *)
  let resultado :=
    match texto_busca with
    | Some (String _ _ as texto_busca) =>
        let texto_lower := lower texto_busca in
        filter (fun l => str_in texto_lower (lower (Licitacao.objeto l))
                         || str_in texto_lower (lower (Licitacao.orgao l))
                         || str_in texto_lower (lower (Licitacao.numero l)))
               resultado
    | _ => resultado
    end in
  (* pagination *)
  let total := len resultado in
  let resultado := slice resultado offset (offset + limite) in
  (resultado, total).

(** The call both endpoints make: every criterion of the filter document
    passed by keyword. *)
Definition filtrar (licitacoes : list Licitacao.t) (f : Filtros.t)
    (limite offset : Z) : list Licitacao.t * Z :=
  filtrar_licitacoes licitacoes
    (Filtros.tipos f) (Filtros.status f) (Filtros.ufs f) (Filtros.cidades f)
    (Filtros.valor_min f) (Filtros.valor_max f)
    (Filtros.data_abertura_inicio f) (Filtros.data_abertura_fim f)
    (Filtros.texto_busca f) limite offset.

End Engine.

(** ** The mock collection (main.py, lines 257-343) *)

Definition MOCK_LICITACOES : list Licitacao.t :=
  [ Licitacao.Make 1 "001/2024" PREGAO
      "Aquisição de equipamentos de informática"
      "Prefeitura Municipal de São Paulo" ABERTA
      (Some (of_Z 150000)) (Date 2024 10 15) (Some (Date 2024 11 15))
      SP "São Paulo" (Some "Presencial/Online")
      (Some "https://exemplo.com/edital1");
    Licitacao.Make 2 "002/2024" CONCORRENCIA
      "Construção de escola municipal"
      "Governo do Estado do Rio de Janeiro" EM_ANDAMENTO
      (Some (of_Z 2500000)) (Date 2024 9 20) (Some (Date 2024 12 20))
      RJ "Rio de Janeiro" (Some "Presencial")
      (Some "https://exemplo.com/edital2");
    Licitacao.Make 3 "003/2024" TOMADA_PRECOS
      "Serviços de limpeza urbana"
      "Prefeitura de Brasília" ABERTA
      (Some (of_Z 800000)) (Date 2024 10 10) (Some (Date 2024 11 30))
      DF "Brasília" (Some "Online")
      (Some "https://exemplo.com/edital3");
    Licitacao.Make 4 "004/2024" PREGAO
      "Aquisição de medicamentos"
      "Hospital Regional de Salvador" ABERTA
      (Some (of_Z 500000)) (Date 2024 10 25) (Some (Date 2024 12 15))
      BA "Salvador" (Some "Online")
      (Some "https://exemplo.com/edital4");
    Licitacao.Make 5 "005/2024" RDC
      "Construção de ponte"
      "DNIT - Departamento Nacional de Infraestrutura" ENCERRADA
      (Some (of_Z 15000000)) (Date 2024 8 1) (Some (Date 2024 9 30))
      MG "Belo Horizonte" (Some "Presencial")
      (Some "https://exemplo.com/edital5") ].

(** ** Endpoints

    The handlers read the module-level [MOCK_LICITACOES]; here the collection
    is the first argument [base], so that the properties can be stated for
    every collection, and the service itself is the handler at
    [MOCK_LICITACOES]. *)

(** The body of the GET /licitacoes and POST /licitacoes/buscar answers. *)
Record Resposta := {
  dados : list Licitacao.t;
  total : Z;
  limite : Z;
  offset : Z;
  tem_proxima_pagina : bool;
  filtros_aplicados : Filtros.t
}.

Record RespostaBusca := {
  busca_dados : list Licitacao.t;
  busca_total : Z;
  busca_filtros_aplicados : Filtros.t
}.

(** Insertion-ordered [dict] with string keys. *)
Definition dict (V : Type) := list (string * V).

Fixpoint dict_get {V} (d : dict V) (k : string) : option V :=
  match d with
  | [] => None
  | (k', v) :: d' => if String.eqb k' k then Some v else dict_get d' k
  end.

(** [d[k] = v] *)
Fixpoint dict_set {V} (d : dict V) (k : string) (v : V) : dict V :=
  match d with
  | [] => [(k, v)]
  | (k', v') :: d' =>
      if String.eqb k' k then (k, v) :: d' else (k', v') :: dict_set d' k v
  end.

Record Estatisticas := {
  total_licitacoes : Z;
  valor_total_estimado : float;
  distribuicao_por_tipo : dict Z;
  distribuicao_por_status : dict Z;
  distribuicao_por_uf : dict Z
}.

Section Endpoints.
Context {CM : CaseMap}.
Variable base : list Licitacao.t.

(** The sorting block of GET /licitacoes (main.py, lines 695-703); the
    handler sorts, in place, the list [filtrar_licitacoes] returned. *)
Definition ordenar (ordenar_por : option string) (ordem_desc : bool)
    (licitacoes_filtradas : list Licitacao.t) : list Licitacao.t :=
  match ordenar_por with
  | Some (String _ _ as ordenar_por) =>
      if list_in String.eqb ordenar_por
           ["data_abertura"; "valor_estimado"; "numero"]
      then
        let reverse := ordem_desc in
        if String.eqb ordenar_por "data_abertura" then
          sort date_ltb Licitacao.data_abertura reverse licitacoes_filtradas
        else if String.eqb ordenar_por "valor_estimado" then
          sort float_ltb
               (fun x => get_or (Licitacao.valor_estimado x) (of_Z 0))
               reverse licitacoes_filtradas
        else if String.eqb ordenar_por "numero" then
          sort str_ltb Licitacao.numero reverse licitacoes_filtradas
        else licitacoes_filtradas
      else licitacoes_filtradas
  | _ => licitacoes_filtradas
  end.

(** GET /licitacoes (main.py, lines 636-725). *)
Definition obter_licitacoes (f : Filtros.t) (limite offset : Z)
    (ordenar_por : option string) (ordem_desc : bool) : Resposta :=
  let '(licitacoes_filtradas, total) := filtrar base f limite offset in
  let licitacoes_filtradas :=
    ordenar ordenar_por ordem_desc licitacoes_filtradas in
  {| dados := licitacoes_filtradas;
     total := total;
     limite := limite;
     offset := offset;
     tem_proxima_pagina := offset + limite <? total;
     filtros_aplicados := f |}.

(** POST /licitacoes/buscar (main.py, lines 821-845): [limite] and [offset]
    are left at the defaults of [filtrar_licitacoes], 100 and 0. *)
Definition buscar_licitacoes (filtros : Filtros.t) : RespostaBusca :=
  let '(licitacoes_filtradas, total) := filtrar base filtros 100 0 in
  {| busca_dados := licitacoes_filtradas;
     busca_total := total;
     busca_filtros_aplicados := filtros |}.

(** The counting loop of GET /estatisticas:
    [count[k] = count.get(k, 0) + 1] for the key of each record in turn. *)
Definition contar (chave : Licitacao.t -> string) (ls : list Licitacao.t)
  : dict Z :=
  fold_left (fun count licitacao =>
               let k := chave licitacao in
               dict_set count k (get_or (dict_get count k) 0 + 1))
            ls [].

(** GET /estatisticas (main.py, lines 785-818). *)
Definition obter_estatisticas : Estatisticas :=
  let total_licitacoes := len base in
  let tipos_count := contar (fun l => tipo_value (Licitacao.tipo l)) base in
  let status_count := contar (fun l => status_value (Licitacao.status l)) base in
  let ufs_count := contar (fun l => uf_value (Licitacao.uf l)) base in
  let valor_total :=
    sum (map (fun l => get_or (Licitacao.valor_estimado l) (of_Z 0)) base) in
  {| total_licitacoes := total_licitacoes;
     valor_total_estimado := valor_total;
     distribuicao_por_tipo := tipos_count;
     distribuicao_por_status := status_count;
     distribuicao_por_uf := ufs_count |}.

End Endpoints.

(** ** The PNCP normaliser (main.py, lines 195-253)

    The upstream payload is whatever [response.json()] returned: JSON
    values, and the exceptions Python raises when a value has the wrong
    shape. *)

#[warnings="-register-all"]
Inductive json :=
| JNull
| JBool (b : bool)
| JInt (z : Z)
| JFloat (q : Q)
| JStr (s : string)
| JArr (items : list json)
| JObj (fields : list (string * json)).

Inductive exc := AttributeError | TypeError.

Inductive res (A : Type) :=
| Ok (a : A)
| Raise (e : exc).
Arguments Ok {A} a.
Arguments Raise {A} e.

Definition bind {A B} (m : res A) (k : A -> res B) : res B :=
  match m with Ok a => k a | Raise e => Raise e end.

Notation "x <- m ;; k" := (bind m (fun x => k))
  (at level 61, m at next level, right associativity).
Notation "' pat <- m ;; k" := (bind m (fun x => match x with pat => k end))
  (at level 61, pat pattern, m at next level, right associativity).

(** [item.get(k, default)]: only a dict has [get]. *)
Definition py_get (item : json) (k : string) (default : json) : res json :=
  match item with
  | JObj d => Ok (get_or (dict_get d k) default)
  | _ => Raise AttributeError
  end.

(** [for item in v]: a list yields its elements, a dict its keys, a string
    its characters (here one per byte: each is a [str] and has no [get]
    either way); anything else is not iterable. *)
Definition py_iter (v : json) : res (list json) :=
  match v with
  | JArr items => Ok items
  | JObj d => Ok (map (fun kv => JStr (fst kv)) d)
  | JStr s => Ok (map (fun c => JStr (String c EmptyString)) (list_ascii_of_string s))
  | _ => Raise TypeError
  end.

(** The record built for one item. *)
Module Normalizada.
Record t := Make {
  id : json;
  numero : json;
  tipo : TipoLicitacao;
  objeto : json;
  orgao : json;
  status : StatusLicitacao;
  valor_estimado : json;
  data_abertura : json;
  data_encerramento : json;
  uf : json;
  cidade : json;
  modalidade_participacao : json;
  link_edital : json
}.
End Normalizada.

Section Normalizer.
Context {CM : CaseMap}.

(** [v.upper()]: only a string has [upper]. *)
Definition py_upper (v : json) : res string :=
  match v with
  | JStr s => Ok (upper s)
  | _ => Raise AttributeError
  end.

Definition mapeamento_tipo : dict TipoLicitacao :=
  [ ("PREGAO", PREGAO); ("CONCORRENCIA", CONCORRENCIA);
    ("TOMADA_PRECOS", TOMADA_PRECOS); ("CONVITE", CONVITE); ("RDC", RDC);
    ("CONCURSO", CONCURSO); ("LEILAO", LEILAO) ].

Definition mapeamento_status : dict StatusLicitacao :=
  [ ("ABERTA", ABERTA); ("EM_ANDAMENTO", EM_ANDAMENTO);
    ("ENCERRADA", ENCERRADA); ("SUSPENSA", SUSPENSA);
    ("CANCELADA", CANCELADA) ].

Definition mapear_tipo_pncp (modalidade : json) : res TipoLicitacao :=
  m <- py_upper modalidade ;;
  Ok (get_or (dict_get mapeamento_tipo m) PREGAO).

Definition mapear_status_pncp (situacao : json) : res StatusLicitacao :=
  s <- py_upper situacao ;;
  Ok (get_or (dict_get mapeamento_status s) ABERTA).

(** The body of the [try]: the dict literal, evaluated key by key. *)
Definition normalizar_item (item : json) : res Normalizada.t :=
  id <- py_get item "sequencialLicitacao" (JInt 0) ;;
  numero <- py_get item "numeroLicitacao" (JStr "") ;;
  modalidade <- py_get item "modalidadeContratacao" (JStr "") ;;
  tipo <- mapear_tipo_pncp modalidade ;;
  objeto <- py_get item "objetoLicitacao" (JStr "") ;;
  orgao <- py_get item "nomeOrgao" (JStr "") ;;
  situacao <- py_get item "situacaoLicitacao" (JStr "") ;;
  status <- mapear_status_pncp situacao ;;
  valor_estimado <- py_get item "valorEstimado" (JInt 0) ;;
  data_abertura <- py_get item "dataAbertura" (JStr "") ;;
  data_encerramento <- py_get item "dataEncerramento" JNull ;;
  uf <- py_get item "ufOrgao" (JStr "") ;;
  cidade <- py_get item "cidadeOrgao" (JStr "") ;;
  modalidade_participacao <- py_get item "modalidadeContratacao" (JStr "") ;;
  link_edital <- py_get item "linkEdital" JNull ;;
  Ok (Normalizada.Make id numero tipo objeto orgao status valor_estimado
        data_abertura data_encerramento uf cidade modalidade_participacao
        link_edital).

(** One turn of the [for] loop: [append] on success, [continue] on any
    exception. *)
Definition normalizar_passo (licitacoes_normalizadas : list Normalizada.t)
    (item : json) : list Normalizada.t :=
  match normalizar_item item with
  | Ok licitacao => licitacoes_normalizadas ++ [licitacao]
  | Raise _ => licitacoes_normalizadas
  end.

Definition normalizar_dados_pncp (dados_pncp : dict json)
  : res (list Normalizada.t) :=
  items <- py_iter (get_or (dict_get dados_pncp "data") (JArr [])) ;;
  Ok (fold_left normalizar_passo items []).

End Normalizer.


(** ** The specification's reading of the filter (spec, section 4.2)

    Nine optional criteria, in the documented order.  A criterion is
    present when the guard of the code lets it through: a non-empty list, a
    bound or a date that is not [None], a non-empty search text. *)

Inductive Criterio :=
  PorTipo | PorStatus | PorUF | PorCidade | ValorMin | ValorMax
| DataInicio | DataFim | TextoBusca.

Definition ordem_documentada : list Criterio :=
  [PorTipo; PorStatus; PorUF; PorCidade; ValorMin; ValorMax;
   DataInicio; DataFim; TextoBusca].

Definition presente (c : Criterio) (f : Filtros.t) : bool :=
  match c with
  | PorTipo => truthy_list (Filtros.tipos f)
  | PorStatus => truthy_list (Filtros.status f)
  | PorUF => truthy_list (Filtros.ufs f)
  | PorCidade => truthy_list (Filtros.cidades f)
  | ValorMin => is_some (Filtros.valor_min f)
  | ValorMax => is_some (Filtros.valor_max f)
  | DataInicio => is_some (Filtros.data_abertura_inicio f)
  | DataFim => is_some (Filtros.data_abertura_fim f)
  | TextoBusca => truthy_str (Filtros.texto_busca f)
  end.

(** [x <= y] on floats and on dates, as propositions. *)
Definition float_le (x y : float) : Prop :=
  match x, y with
  | Fin a, Fin b => (a <= b)%Q
  | _, Inf => True
  | Inf, Fin _ => False
  end.

Definition date_le (a b : date) : Prop :=
  year a < year b
  \/ (year a = year b
      /\ (month a < month b \/ (month a = month b /\ day a <= day b))).

(** [sub] occurs in [s]. *)
Definition ocorre_em (sub s : string) : Prop :=
  exists pre post, s = pre ++ sub ++ post.

Section Spec.
Context {CM : CaseMap}.

(** What each criterion asks of a record, in the words of the spec. *)
Definition Satisfaz (c : Criterio) (f : Filtros.t) (l : Licitacao.t) : Prop :=
  match c with
  | PorTipo => In (Licitacao.tipo l) (get_or (Filtros.tipos f) [])
  | PorStatus => In (Licitacao.status l) (get_or (Filtros.status f) [])
  | PorUF => In (Licitacao.uf l) (get_or (Filtros.ufs f) [])
  | PorCidade =>
      exists c, In c (get_or (Filtros.cidades f) [])
                /\ lower c = lower (Licitacao.cidade l)
  | ValorMin =>
      forall m, Filtros.valor_min f = Some m ->
                float_le m (get_or (Licitacao.valor_estimado l) (of_Z 0))
  | ValorMax =>
      forall m, Filtros.valor_max f = Some m ->
                float_le (get_or (Licitacao.valor_estimado l) Inf) m
  | DataInicio =>
      forall d, Filtros.data_abertura_inicio f = Some d ->
                date_le d (Licitacao.data_abertura l)
  | DataFim =>
      forall d, Filtros.data_abertura_fim f = Some d ->
                date_le (Licitacao.data_abertura l) d
  | TextoBusca =>
      let t := lower (get_or (Filtros.texto_busca f) "") in
      ocorre_em t (lower (Licitacao.objeto l))
      \/ ocorre_em t (lower (Licitacao.orgao l))
      \/ ocorre_em t (lower (Licitacao.numero l))
  end.

(** The same, decided. *)
Definition predicado (c : Criterio) (f : Filtros.t) (l : Licitacao.t) : bool :=
  match c with
  | PorTipo =>
      list_in TipoLicitacao_beq (Licitacao.tipo l) (get_or (Filtros.tipos f) [])
  | PorStatus =>
      list_in StatusLicitacao_beq (Licitacao.status l)
              (get_or (Filtros.status f) [])
  | PorUF => list_in UF_beq (Licitacao.uf l) (get_or (Filtros.ufs f) [])
  | PorCidade =>
      list_in String.eqb (lower (Licitacao.cidade l))
              (map lower (get_or (Filtros.cidades f) []))
  | ValorMin =>
      match Filtros.valor_min f with
      | Some m => float_leb m (get_or (Licitacao.valor_estimado l) (of_Z 0))
      | None => true
      end
  | ValorMax =>
      match Filtros.valor_max f with
      | Some m => float_leb (get_or (Licitacao.valor_estimado l) Inf) m
      | None => true
      end
  | DataInicio =>
      match Filtros.data_abertura_inicio f with
      | Some d => date_leb d (Licitacao.data_abertura l)
      | None => true
      end
  | DataFim =>
      match Filtros.data_abertura_fim f with
      | Some d => date_leb (Licitacao.data_abertura l) d
      | None => true
      end
  | TextoBusca =>
      let t := lower (get_or (Filtros.texto_busca f) "") in
      str_in t (lower (Licitacao.objeto l))
      || str_in t (lower (Licitacao.orgao l))
      || str_in t (lower (Licitacao.numero l))
  end.

(** A record satisfies every present criterion / violates a present one. *)
Definition satisfaz_presentes (f : Filtros.t) (l : Licitacao.t) : Prop :=
  forall c, presente c f = true -> Satisfaz c f l.

Definition viola_algum (f : Filtros.t) (l : Licitacao.t) : Prop :=
  exists c, presente c f = true /\ ~ Satisfaz c f l.

Definition satisfaz_todos (f : Filtros.t) (l : Licitacao.t) : bool :=
  forallb (fun c => implb (presente c f) (predicado c f l)) ordem_documentada.

(** One conjunctive narrowing step, and a sequence of them. *)
Definition passo (f : Filtros.t) (c : Criterio) (ws : list Licitacao.t)
  : list Licitacao.t :=
  if presente c f then filter (predicado c f) ws else ws.

Definition aplicar (f : Filtros.t) (cs : list Criterio)
    (ws : list Licitacao.t) : list Licitacao.t :=
  fold_left (fun ws c => passo f c ws) cs ws.

(** The claim of section 4.3 read literally: order the whole filtered
    subset, then take the page. *)
Definition ordenar_depois_paginar (base : list Licitacao.t) (f : Filtros.t)
    (limite offset : Z) (ordenar_por : option string) (ordem_desc : bool)
  : list Licitacao.t :=
  slice (ordenar ordenar_por ordem_desc (filter (satisfaz_todos f) base))
        offset (offset + limite).

End Spec.

(** Number of records whose key is [k]. *)
Definition ocorrencias (chave : Licitacao.t -> string)
    (ls : list Licitacao.t) (k : string) : Z :=
  len (filter (fun l => String.eqb (chave l) k) ls).

(** What a grouped count must hold at [k]: nothing for a key never seen,
    the number of occurrences otherwise. *)
Definition contagem_esperada (chave : Licitacao.t -> string)
    (ls : list Licitacao.t) (k : string) : option Z :=
  let n := ocorrencias chave ls k in
  if n =? 0 then None else Some n.


(** ** The specification's reading of the normaliser (spec, section 4.1) *)

(** The keys [normalizar_dados_pncp] looks up in an item. *)
Definition chaves_reconhecidas : list string :=
  [ "sequencialLicitacao"; "numeroLicitacao"; "modalidadeContratacao";
    "objetoLicitacao"; "nomeOrgao"; "situacaoLicitacao"; "valorEstimado";
    "dataAbertura"; "dataEncerramento"; "ufOrgao"; "cidadeOrgao";
    "linkEdital" ].

(** The record made of fallback defaults only. *)
Definition registro_fallback : Normalizada.t :=
  Normalizada.Make (JInt 0) (JStr "") PREGAO (JStr "") (JStr "") ABERTA
                   (JInt 0) (JStr "") JNull (JStr "") (JStr "") (JStr "")
                   JNull.

(** The records of the items that normalise, in the order of the items. *)
Definition sobreviventes {CM : CaseMap} (items : list json)
  : list Normalizada.t :=
  flat_map (fun item => match normalizar_item item with
                        | Ok licitacao => [licitacao]
                        | Raise _ => []
                        end) items.

(** A well-formed upstream item. *)
Definition item_bem_formado : json :=
  JObj [ ("sequencialLicitacao", JInt 42);
         ("numeroLicitacao", JStr "042/2024");
         ("modalidadeContratacao", JStr "Concorrencia");
         ("objetoLicitacao", JStr "Obra");
         ("nomeOrgao", JStr "Prefeitura");
         ("situacaoLicitacao", JStr "suspensa");
         ("valorEstimado", JInt 1000);
         ("dataAbertura", JStr "2024-10-15");
         ("ufOrgao", JStr "SP");
         ("cidadeOrgao", JStr "Campinas") ].

(** ** Concrete inputs used below *)

(** A record that only differs from its neighbours by its [id]. *)
Definition registro (n : nat) : Licitacao.t :=
  Licitacao.Make (Z.of_nat n) "" PREGAO "" "" ABERTA None (Date 2024 1 1)
                 None SP "" None None.

(** 101 records, ids 1 to 101. *)
Definition colecao_grande : list Licitacao.t := map registro (seq 1 101).

(** A record whose dict has no ["valor_estimado"] key. *)
Definition sem_valor : Licitacao.t := registro 1.

Definition so_valor_min (m : float) : Filtros.t :=
  Filtros.Make None None None None (Some m) None None None None.

Definition so_valor_max (m : float) : Filtros.t :=
  Filtros.Make None None None None None (Some m) None None None.

Definition so_tipos (ts : list TipoLicitacao) : Filtros.t :=
  Filtros.Make (Some ts) None None None None None None None None.

(** ** The remaining endpoints of main.py *)

(** [HTTPException(status_code=..., detail=...)]: the detail is a message
    for the client and is left out. *)
Inductive HTTPException := HTTP (status_code : Z).

(** A handler answers or raises. *)
Inductive http (A : Type) :=
| Responde (a : A)
| Levanta (e : HTTPException).
Arguments Responde {A} a.
Arguments Levanta {A} e.

(** The members of the enums, in definition order (what iterating the
    class yields). *)
Definition membros_TipoLicitacao : list TipoLicitacao :=
  [CONVITE; TOMADA_PRECOS; CONCORRENCIA; PREGAO; CONCURSO; LEILAO; RDC;
   CONSULTA_PUBLICA].

Definition membros_StatusLicitacao : list StatusLicitacao :=
  [ABERTA; EM_ANDAMENTO; ENCERRADA; SUSPENSA; CANCELADA].

Definition membros_UF : list UF :=
  [AC; AL; AP; AM; BA; CE; DF; ES; GO; MA; MT; MS; MG; PA; PB; PR; PE; PI;
   RJ; RN; RS; RO; RR; SC; SP; SE; TO].

(** GET /tipos, /status, /ufs (main.py, lines 759-772). *)
Definition obter_tipos_licitacao : list string :=
  map tipo_value membros_TipoLicitacao.

Definition obter_status_licitacao : list string :=
  map status_value membros_StatusLicitacao.

Definition obter_ufs : list string := map uf_value membros_UF.

Section LookupEndpoints.
Variable base : list Licitacao.t.

(** GET /licitacoes/{licitacao_id} (main.py, lines 748-757):
    [next((l for l in ... if l["id"] == licitacao_id), None)], then 404
    when nothing was found. *)
Definition obter_licitacao_por_id (licitacao_id : Z) : http Licitacao.t :=
  let licitacao :=
    find (fun l => Licitacao.id l =? licitacao_id) base in
  match licitacao with
  | None => Levanta (HTTP 404)
  | Some licitacao => Responde licitacao
  end.

(** [set(xs)] enumerates the distinct elements of [xs] in an order Python
    does not specify: the enumeration is a parameter. *)
Variable py_set : list string -> list string.

(** GET /cidades (main.py, lines 774-783): [sorted(list(set(cidades)))]. *)
Definition obter_cidades (uf : option UF) : list string :=
  let cidades :=
    match uf with
    | Some uf =>
        map Licitacao.cidade
            (filter (fun l => UF_beq (Licitacao.uf l) uf) base)
    | None => map Licitacao.cidade base
    end in
  sort str_ltb (fun c => c) false (py_set cidades).

End LookupEndpoints.

(** ** The upstream integrations (main.py, lines 94-193, 432-616)

    The HTTP transport is outside the repository: a request either comes
    back with a status code and a body ([None] when the body is not JSON and
    [response.json()] raises) or fails with an exception.  [strftime] is the
    runtime's date formatting. *)

Inductive http_outcome :=
| HttpResposta (status_code : Z) (body : option json)
| HttpExcecao.

Definition PNCP_BASE_URL : string := "https://pncp.gov.br/api/pncp/v1".
Definition TRANSPARENCIA_BASE_URL : string :=
  "https://api.portaldatransparencia.gov.br/api-de-dados".

(** [if s: params[k] = s] *)
Definition set_if_truthy (params : dict json) (k : string) (s : option string)
  : dict json :=
  match s with
  | Some (String _ _ as s) => dict_set params k (JStr s)
  | _ => params
  end.

(** What the handlers of the upstream routes answer. *)
Record RespostaPncp := {
  pncp_fonte : string;
  pncp_dados : list Normalizada.t;
  pncp_total : json;
  pncp_pagina : Z;
  pncp_tamanho_pagina : Z;
  pncp_parametros_busca : list (string * option string)
}.

Record RespostaTransparencia := {
  transp_fonte : string;
  transp_dados : json;
  transp_total : Z;
  transp_pagina : Z;
  transp_parametros_busca : list (string * option string)
}.

(** An element of the consolidated data: a normalised PNCP record, a raw
    item of the Transparencia answer, or a mock record. *)
Inductive consolidado :=
| DoPncp (l : Normalizada.t)
| DaTransparencia (item : json)
| DoMock (l : Licitacao.t).

Record Fonte := { fonte_total : json; fonte_recuperados : Z }.

Record RespostaConsolidada := {
  fontes_consultadas : dict Fonte;
  cons_dados : list consolidado;
  total_consolidado : Z
}.

Section Upstream.
Context {CM : CaseMap}.
Variable http_get :
  string -> dict json -> option (dict string) -> http_outcome.
Variable strftime : date -> string -> string.

(** [LicitacaoService.buscar_licitacoes_pncp] (main.py, lines 99-139). *)
Definition buscar_licitacoes_pncp
    (cnpj_orgao data_inicio data_fim modalidade : option string)
    (pagina tam_pagina : Z) : json :=
  let fallback := JObj [("data", JArr []); ("totalElements", JInt 0)] in
  let params := [("pagina", JInt pagina); ("tamanhoPagina", JInt tam_pagina)] in
  let params := set_if_truthy params "cnpjOrgao" cnpj_orgao in
  let params := set_if_truthy params "dataInicial" data_inicio in
  let params := set_if_truthy params "dataFinal" data_fim in
  let params := set_if_truthy params "modalidadeContratacao" modalidade in
  let url :=
    match cnpj_orgao with
    | Some (String _ _ as cnpj_orgao) =>
        PNCP_BASE_URL ++ "/orgaos/" ++ cnpj_orgao ++ "/licitacoes"
    | _ => PNCP_BASE_URL ++ "/licitacoes"
    end in
  match http_get url params None with
  | HttpResposta status_code body =>
      if status_code =? 200 then
        match body with
        | Some dados => dados
        | None => fallback        (* [response.json()] raised *)
        end
      else fallback
  | HttpExcecao => fallback
  end.

(** [LicitacaoService.buscar_licitacoes_transparencia]
    (main.py, lines 154-193). *)
Definition buscar_licitacoes_transparencia
    (codigo_orgao data_inicio data_fim : option string) (pagina : Z) : json :=
  let params := [("pagina", JInt pagina)] in
  let params := set_if_truthy params "codigoOrgao" codigo_orgao in
  let params := set_if_truthy params "dataInicial" data_inicio in
  let params := set_if_truthy params "dataFinal" data_fim in
  let url := TRANSPARENCIA_BASE_URL ++ "/licitacoes" in
  let headers := [("Accept", "application/json");
                  ("User-Agent", "API-Licitacoes/1.0")] in
  match http_get url params (Some headers) with
  | HttpResposta status_code body =>
      if status_code =? 200 then
        match body with
        | Some dados => dados
        | None => JArr []
        end
      else JArr []
  | HttpExcecao => JArr []
  end.

(** [normalizar_dados_pncp] on whatever the fetch returned: only a dict
    has [get]. *)
Definition normalizar_resposta_pncp (dados_pncp : json)
  : res (list Normalizada.t) :=
  match dados_pncp with
  | JObj d => normalizar_dados_pncp d
  | _ => Raise AttributeError
  end.

(** [len(v) if isinstance(v, list) else 0] *)
Definition len_if_list (v : json) : Z :=
  match v with
  | JArr items => len items
  | _ => 0
  end.

(** GET /licitacoes/pncp (main.py, lines 432-480): any exception of the
    body becomes a 500. *)
Definition obter_licitacoes_pncp
    (cnpj_orgao : option string) (data_inicio data_fim : option date)
    (modalidade : option string) (pagina tamanho_pagina : Z)
  : http RespostaPncp :=
  let data_inicio_str :=
    option_map (fun d => strftime d "%Y-%m-%d") data_inicio in
  let data_fim_str := option_map (fun d => strftime d "%Y-%m-%d") data_fim in
  let dados_pncp :=
    buscar_licitacoes_pncp cnpj_orgao data_inicio_str data_fim_str modalidade
                           pagina tamanho_pagina in
  match normalizar_resposta_pncp dados_pncp,
        py_get dados_pncp "totalElements" (JInt 0) with
  | Ok licitacoes_normalizadas, Ok total =>
      Responde {| pncp_fonte := "PNCP - Portal Nacional de Contratações Públicas";
                  pncp_dados := licitacoes_normalizadas;
                  pncp_total := total;
                  pncp_pagina := pagina;
                  pncp_tamanho_pagina := tamanho_pagina;
                  pncp_parametros_busca :=
                    [("cnpj_orgao", cnpj_orgao);
                     ("data_inicio", data_inicio_str);
                     ("data_fim", data_fim_str);
                     ("modalidade", modalidade)] |}
  | _, _ => Levanta (HTTP 500)
  end.

(** GET /licitacoes/transparencia (main.py, lines 482-521). *)
Definition obter_licitacoes_transparencia
    (codigo_orgao : option string) (data_inicio data_fim : option date)
    (pagina : Z) : http RespostaTransparencia :=
  let data_inicio_str :=
    option_map (fun d => strftime d "%d/%m/%Y") data_inicio in
  let data_fim_str := option_map (fun d => strftime d "%d/%m/%Y") data_fim in
  let dados_transparencia :=
    buscar_licitacoes_transparencia codigo_orgao data_inicio_str data_fim_str
                                    pagina in
  Responde {| transp_fonte := "Portal da Transparência - Governo Federal";
              transp_dados := dados_transparencia;
              transp_total := len_if_list dados_transparencia;
              transp_pagina := pagina;
              transp_parametros_busca :=
                [("codigo_orgao", codigo_orgao);
                 ("data_inicio", data_inicio_str);
                 ("data_fim", data_fim_str)] |}.

(** GET /licitacoes/consolidado (main.py, lines 523-616), over the
    collection [base] for the mock fallback. *)
Definition obter_licitacoes_consolidado (base : list Licitacao.t)
    (data_inicio data_fim : option date)
    (cnpj_orgao modalidade codigo_orgao : option string)
    (incluir_pncp incluir_transparencia : bool)
    (pagina tamanho_pagina : Z) : http RespostaConsolidada :=
  let resultados : dict Fonte := [] in
  let dados_consolidados : list consolidado := [] in
  (* if incluir_pncp: *)
  let passo_pncp : res (dict Fonte * list consolidado) :=
    if incluir_pncp then
      let data_inicio_str :=
        option_map (fun d => strftime d "%Y-%m-%d") data_inicio in
      let data_fim_str :=
        option_map (fun d => strftime d "%Y-%m-%d") data_fim in
      let dados_pncp :=
        buscar_licitacoes_pncp cnpj_orgao data_inicio_str data_fim_str
                               modalidade pagina tamanho_pagina in
      licitacoes_pncp <- normalizar_resposta_pncp dados_pncp ;;
      total <- py_get dados_pncp "totalElements" (JInt 0) ;;
      Ok (dict_set resultados "pncp"
                   {| fonte_total := total;
                      fonte_recuperados := len licitacoes_pncp |},
          (dados_consolidados ++ map DoPncp licitacoes_pncp)%list)
    else Ok (resultados, dados_consolidados) in
  (* if incluir_transparencia: *)
  let passo_transparencia : res (dict Fonte * list consolidado) :=
    '(resultados, dados_consolidados) <- passo_pncp ;;
    if incluir_transparencia then
      let data_inicio_str :=
        option_map (fun d => strftime d "%d/%m/%Y") data_inicio in
      let data_fim_str :=
        option_map (fun d => strftime d "%d/%m/%Y") data_fim in
      let dados_transparencia :=
        buscar_licitacoes_transparencia codigo_orgao data_inicio_str
                                        data_fim_str pagina in
      items <- py_iter dados_transparencia ;;
      Ok (dict_set resultados "transparencia"
                   {| fonte_total := JInt (len_if_list dados_transparencia);
                      fonte_recuperados := len_if_list dados_transparencia |},
          (dados_consolidados ++ map DaTransparencia items)%list)
    else Ok (resultados, dados_consolidados) in
  match passo_transparencia with
  | Raise _ => Levanta (HTTP 500)
  | Ok (resultados, dados_consolidados) =>
      (* if not incluir_pncp and not incluir_transparencia: *)
      let '(resultados, dados_consolidados) :=
        if negb incluir_pncp && negb incluir_transparencia then
          (dict_set resultados "mock"
                    {| fonte_total := JInt (len base);
                       fonte_recuperados := len base |},
           map DoMock base)
        else (resultados, dados_consolidados) in
      Responde {| fontes_consultadas := resultados;
                  cons_dados := dados_consolidados;
                  total_consolidado := len dados_consolidados |}
  end.

End Upstream.

(** ** Vocabulary for the sorting block *)

(** Two keys neither of which is below the other. *)
Definition mesma_chave {K} (ltb : K -> K -> bool) (a b : K) : bool :=
  negb (ltb a b) && negb (ltb b a).

(** [x] may come before [y]: ascending, the key of [y] is not below that of
    [x]; descending, the other way round. *)
Definition em_ordem {A K} (ltb : K -> K -> bool) (key : A -> K)
    (reverse : bool) (x y : A) : Prop :=
  if reverse then ltb (key x) (key y) = false
  else ltb (key y) (key x) = false.

(** The key of the sort by estimated value. *)
Definition chave_valor (x : Licitacao.t) : float :=
  get_or (Licitacao.valor_estimado x) (of_Z 0).

(** ** Vocabulary for the filter engine *)

(** [l1] is [l2] with some elements removed, the others in place. *)
Inductive Subseq {A : Type} : list A -> list A -> Prop :=
| Subseq_nil : Subseq [] []
| Subseq_skip (x : A) (l1 l2 : list A) : Subseq l1 l2 -> Subseq l1 (x :: l2)
| Subseq_take (x : A) (l1 l2 : list A) :
    Subseq l1 l2 -> Subseq (x :: l1) (x :: l2).

(** The filter document with its empty lists and empty search text
    removed. *)
Definition sem_lista_vazia {A} (o : option (list A)) : option (list A) :=
  match o with Some [] => None | _ => o end.

Definition sem_texto_vazio (o : option string) : option string :=
  match o with Some EmptyString => None | _ => o end.

Definition sem_vazios (f : Filtros.t) : Filtros.t :=
  Filtros.Make (sem_lista_vazia (Filtros.tipos f))
               (sem_lista_vazia (Filtros.status f))
               (sem_lista_vazia (Filtros.ufs f))
               (sem_lista_vazia (Filtros.cidades f))
               (Filtros.valor_min f) (Filtros.valor_max f)
               (Filtros.data_abertura_inicio f)
               (Filtros.data_abertura_fim f)
               (sem_texto_vazio (Filtros.texto_busca f)).

(** A finite value range, or a date range, whose lower end is above its
    upper end. *)
Definition faixa_invertida (f : Filtros.t) : Prop :=
  (exists a b, Filtros.valor_min f = Some (Fin a)
               /\ Filtros.valor_max f = Some (Fin b) /\ (b < a)%Q)
  \/ (exists d1 d2, Filtros.data_abertura_inicio f = Some d1
                    /\ Filtros.data_abertura_fim f = Some d2
                    /\ date_ltb d2 d1 = true).

(** ** Vocabulary for the normaliser, the statistics and the upstream routes *)

(** The value under [k] is missing or a string. *)
Definition campo_texto (d : dict json) (k : string) : bool :=
  match dict_get d k with
  | None | Some (JStr _) => true
  | Some _ => false
  end.

(** The items the normaliser keeps: JSON objects whose modality and
    situation codes, when given, are strings. *)
Definition item_valido (item : json) : bool :=
  match item with
  | JObj d =>
      campo_texto d "modalidadeContratacao"
      && campo_texto d "situacaoLicitacao"
  | _ => false
  end.

(** A PNCP answer the handler cannot process: not an object, or an object
    whose ["data"] cannot be iterated. *)
Definition resposta_invalida (dados_pncp : json) : Prop :=
  match dados_pncp with
  | JObj d =>
      match get_or (dict_get d "data") (JArr []) with
      | JArr _ | JObj _ | JStr _ => False
      | _ => True
      end
  | _ => True
  end.

(** The transport gave nothing usable: an exception, a status other than
    200, or a body that is not JSON. *)
Definition sem_resposta (o : http_outcome) : Prop :=
  match o with
  | HttpResposta 200 (Some _) => False
  | _ => True
  end.

(** The sum of the values of a dict of counts. *)
Definition soma_valores (d : dict Z) : Z :=
  fold_right (fun kv acc => snd kv + acc) 0 d.

Definition soma_recuperados (d : dict Fonte) : Z :=
  fold_right (fun kv acc => fonte_recuperados (snd kv) + acc) 0 d.

Definition e_do_mock (c : consolidado) : bool :=
  match c with DoMock _ => true | _ => false end.

(** ** Concrete inputs for the remaining endpoints *)

(** A value range with its minimum above its maximum. *)
Definition filtro_invertido : Filtros.t :=
  Filtros.Make None None None None (Some (of_Z 10)) (Some (of_Z 5))
               None None None.

(** Two enumerations of the distinct elements of a list. *)
Definition set_a (xs : list string) : list string := nodup string_dec xs.
Definition set_b (xs : list string) : list string := rev (nodup string_dec xs).

(** An upstream that is down, one that answers two items of which one is
    null, and a date formatting that is never called on the inputs below. *)
Definition http_fora_do_ar
    (_ : string) (_ : dict json) (_ : option (dict string)) : http_outcome :=
  HttpExcecao.

Definition resposta_pncp_exemplo : json :=
  JObj [("data", JArr [item_bem_formado; JNull]); ("totalElements", JInt 57)].

Definition http_com_resposta
    (_ : string) (_ : dict json) (_ : option (dict string)) : http_outcome :=
  HttpResposta 200 (Some resposta_pncp_exemplo).

Definition strftime_vazio (_ : date) (_ : string) : string := "".

(** * Properties *)

(** ** Strings, floats, dates: the decision procedures decide *)

Lemma prefix_iff (a b : string) :
  String.prefix a b = true <-> exists post, b = a ++ post.
Proof.
  revert b; induction a as [|c a IH]; intros b; destruct b as [|d b]; simpl.
  - split; [intros _; now exists "" | reflexivity].
  - split; [intros _; now exists (String d b) | reflexivity].
  - split; [discriminate | intros [post H]; discriminate].
  - destruct (ascii_dec c d) as [->|Hne].
    + rewrite IH. split; intros [post H]; exists post.
      * now rewrite H.
      * now injection H.
    + split; [discriminate | intros [post H]; injection H; congruence].
Qed.

Lemma str_in_unfold (sub s : string) :
  str_in sub s =
  if String.prefix sub s then true
  else match s with EmptyString => false | String _ s' => str_in sub s' end.
Proof. destruct s; reflexivity. Qed.

Lemma str_in_iff (sub s : string) : str_in sub s = true <-> ocorre_em sub s.
Proof.
  unfold ocorre_em.
  induction s as [|c s IH]; rewrite str_in_unfold.
  - destruct (String.prefix sub "") eqn:E.
    + apply prefix_iff in E as [post E].
      split; [intros _; now exists "", post | reflexivity].
    + split; [discriminate|].
      intros [pre [post H]]. destruct pre; [|discriminate]. simpl in H.
      assert (String.prefix sub "" = true) by (apply prefix_iff; eauto).
      congruence.
  - destruct (String.prefix sub (String c s)) eqn:E.
    + apply prefix_iff in E as [post E].
      split; [intros _; now exists "", post | reflexivity].
    + rewrite IH. split.
      * intros [pre [post H]]. exists (String c pre), post. simpl. now rewrite H.
      * intros [pre [post H]]. destruct pre as [|c' pre].
        -- simpl in H.
           assert (String.prefix sub (String c s) = true)
             by (apply prefix_iff; eauto).
           congruence.
        -- simpl in H. injection H as _ H. eauto.
Qed.

Lemma float_leb_iff (x y : float) : float_leb x y = true <-> float_le x y.
Proof.
  destruct x, y; simpl; try apply Qle_bool_iff; intuition discriminate.
Qed.

Lemma date_leb_iff (a b : date) : date_leb a b = true <-> date_le a b.
Proof.
  unfold date_leb, date_le.
  rewrite !orb_true_iff, !andb_true_iff, !orb_true_iff, !andb_true_iff.
  rewrite !Z.ltb_lt, !Z.eqb_eq, Z.leb_le. reflexivity.
Qed.

Lemma list_in_iff {A} (eqb : A -> A -> bool) (x : A) (xs : list A) :
  (forall a b, eqb a b = true <-> a = b) ->
  list_in eqb x xs = true <-> In x xs.
Proof.
  intros Heq. unfold list_in. rewrite existsb_exists. split.
  - intros [y [Hy E]]. apply Heq in E. now subst.
  - intros H. exists x. split; [assumption | now apply Heq].
Qed.

Lemma TipoLicitacao_beq_iff a b : TipoLicitacao_beq a b = true <-> a = b.
Proof. destruct a, b; simpl; split; congruence. Qed.

Lemma StatusLicitacao_beq_iff a b : StatusLicitacao_beq a b = true <-> a = b.
Proof. destruct a, b; simpl; split; congruence. Qed.

Lemma UF_beq_iff a b : UF_beq a b = true <-> a = b.
Proof.
  split.
  - apply internal_UF_dec_bl.
  - apply internal_UF_dec_lb.
Qed.

Section FilterFacts.
Context {CM : CaseMap}.

(** The decided predicate agrees with the specification's wording. *)
Lemma predicado_iff (c : Criterio) (f : Filtros.t) (l : Licitacao.t) :
  predicado c f l = true <-> Satisfaz c f l.
Proof.
  destruct c; simpl.
  - apply list_in_iff, TipoLicitacao_beq_iff.
  - apply list_in_iff, StatusLicitacao_beq_iff.
  - apply list_in_iff, UF_beq_iff.
  - rewrite (list_in_iff _ _ _ String.eqb_eq), in_map_iff.
    split; intros [c [H1 H2]]; exists c; tauto.
  - destruct (Filtros.valor_min f) as [m|].
    + rewrite float_leb_iff. split; [intros H m' [= <-]; exact H | auto].
    + split; [intros _ m; discriminate | reflexivity].
  - destruct (Filtros.valor_max f) as [m|].
    + rewrite float_leb_iff. split; [intros H m' [= <-]; exact H | auto].
    + split; [intros _ m; discriminate | reflexivity].
  - destruct (Filtros.data_abertura_inicio f) as [d|].
    + rewrite date_leb_iff. split; [intros H d' [= <-]; exact H | auto].
    + split; [intros _ d; discriminate | reflexivity].
  - destruct (Filtros.data_abertura_fim f) as [d|].
    + rewrite date_leb_iff. split; [intros H d' [= <-]; exact H | auto].
    + split; [intros _ d; discriminate | reflexivity].
  - rewrite !orb_true_iff, !str_in_iff. tauto.
Qed.

Lemma todos_criterios (c : Criterio) : In c ordem_documentada.
Proof. destruct c; simpl; tauto. Qed.

Lemma satisfaz_todos_iff (f : Filtros.t) (l : Licitacao.t) :
  satisfaz_todos f l = true <-> satisfaz_presentes f l.
Proof.
  unfold satisfaz_todos, satisfaz_presentes. rewrite forallb_forall. split.
  - intros H c Hc. specialize (H c (todos_criterios c)).
    rewrite Hc in H. now apply predicado_iff.
  - intros H c _. destruct (presente c f) eqn:Hc; [|reflexivity].
    simpl. now apply predicado_iff, H.
Qed.

Lemma nao_satisfaz_viola (f : Filtros.t) (l : Licitacao.t) :
  satisfaz_todos f l = false -> viola_algum f l.
Proof.
  unfold satisfaz_todos, viola_algum. intros H.
  assert (E : existsb (fun c => negb (implb (presente c f) (predicado c f l)))
                      ordem_documentada = true).
  { clear -H. induction ordem_documentada as [|c cs IH]; simpl in *.
    - discriminate.
    - apply andb_false_iff in H as [H|H].
      + now rewrite H.
      + rewrite (IH H). apply orb_true_r. }
  apply existsb_exists in E as [c [_ Hc]].
  exists c. destruct (presente c f); simpl in Hc; [|discriminate].
  split; [reflexivity|]. rewrite <- predicado_iff.
  destruct (predicado c f l); [discriminate | congruence].
Qed.

End FilterFacts.

(** ** Slices *)

Lemma slice_0 {A} (l : list A) (n : Z) :
  0 <= n -> slice l 0 n = firstn (Z.to_nat n) l.
Proof.
  intros Hn. unfold slice, clamp_index.
  change (0 <? 0) with false. cbv iota.
  replace (Z.min 0 (Z.of_nat (length l))) with 0 by lia.
  rewrite Z.sub_0_r. change (Z.to_nat 0) with 0%nat. rewrite skipn_O.
  destruct (n <? 0) eqn:E; [apply Z.ltb_lt in E; lia|].
  destruct (Z.min_spec n (Z.of_nat (length l))) as [[H ->]|[H ->]].
  - reflexivity.
  - rewrite Nat2Z.id, firstn_all. symmetry. apply firstn_all2. lia.
Qed.

Lemma slice_all {A} (l : list A) (n : Z) :
  len l <= n -> slice l 0 n = l.
Proof.
  unfold len. intros H. rewrite slice_0 by lia. apply firstn_all2. lia.
Qed.

Lemma slice_length {A} (l : list A) (offset limite : Z) :
  0 <= offset -> 0 < limite -> offset <= len l ->
  len (slice l offset (offset + limite))
  = Z.max 0 (Z.min limite (len l - offset)).
Proof.
  unfold len, slice, clamp_index. intros H0 Hl Ho.
  destruct (offset <? 0) eqn:E1; [apply Z.ltb_lt in E1; lia|].
  destruct (offset + limite <? 0) eqn:E2; [apply Z.ltb_lt in E2; lia|].
  rewrite length_firstn, length_skipn. lia.
Qed.

Lemma slice_beyond {A} (l : list A) (offset limite : Z) :
  len l < offset -> slice l offset (offset + limite) = [].
Proof.
  unfold len, slice, clamp_index. intros Ho.
  destruct (offset <? 0) eqn:E1; [apply Z.ltb_lt in E1; lia|].
  replace (Z.min offset (Z.of_nat (length l))) with (Z.of_nat (length l))
    by lia.
  rewrite Nat2Z.id, skipn_all. apply firstn_nil.
Qed.

Lemma In_firstn {A} (n : nat) (l : list A) (x : A) :
  In x (firstn n l) -> In x l.
Proof.
  revert l; induction n as [|n IH]; intros [|y l]; simpl; try tauto.
  intros [H|H]; [now left | right; now apply IH].
Qed.

Lemma In_skipn {A} (n : nat) (l : list A) (x : A) :
  In x (skipn n l) -> In x l.
Proof.
  revert l; induction n as [|n IH]; intros [|y l]; simpl; try tauto.
  intros H; right; now apply IH.
Qed.

Lemma slice_incl {A} (l : list A) (a b : Z) (x : A) :
  In x (slice l a b) -> In x l.
Proof.
  unfold slice. intros H.
  eapply In_skipn, In_firstn, H.
Qed.

(** ** The code narrows step by step; the steps amount to one filter *)

Section EngineFacts.
Context {CM : CaseMap}.

(** Each guarded block of [filtrar_licitacoes] is one narrowing step. *)
Lemma passo_unfold (f : Filtros.t) (c : Criterio) (r : list Licitacao.t) :
  passo f c r =
  match c with
  | PorTipo =>
      match Filtros.tipos f with
      | Some ((_ :: _) as tipos) =>
          filter (fun l => list_in TipoLicitacao_beq (Licitacao.tipo l) tipos) r
      | _ => r
      end
  | PorStatus =>
      match Filtros.status f with
      | Some ((_ :: _) as status) =>
          filter (fun l => list_in StatusLicitacao_beq (Licitacao.status l)
                                   status) r
      | _ => r
      end
  | PorUF =>
      match Filtros.ufs f with
      | Some ((_ :: _) as ufs) =>
          filter (fun l => list_in UF_beq (Licitacao.uf l) ufs) r
      | _ => r
      end
  | PorCidade =>
      match Filtros.cidades f with
      | Some ((_ :: _) as cidades) =>
          filter (fun l => list_in String.eqb (lower (Licitacao.cidade l))
                                   (map lower cidades)) r
      | _ => r
      end
  | ValorMin =>
      match Filtros.valor_min f with
      | Some valor_min =>
          filter (fun l => float_leb valor_min
                             (get_or (Licitacao.valor_estimado l) (of_Z 0))) r
      | None => r
      end
  | ValorMax =>
      match Filtros.valor_max f with
      | Some valor_max =>
          filter (fun l => float_leb (get_or (Licitacao.valor_estimado l) Inf)
                                     valor_max) r
      | None => r
      end
  | DataInicio =>
      match Filtros.data_abertura_inicio f with
      | Some inicio =>
          filter (fun l => date_leb inicio (Licitacao.data_abertura l)) r
      | None => r
      end
  | DataFim =>
      match Filtros.data_abertura_fim f with
      | Some fim =>
          filter (fun l => date_leb (Licitacao.data_abertura l) fim) r
      | None => r
      end
  | TextoBusca =>
      match Filtros.texto_busca f with
      | Some (String _ _ as texto_busca) =>
          filter (fun l =>
                    str_in (lower texto_busca) (lower (Licitacao.objeto l))
                    || str_in (lower texto_busca) (lower (Licitacao.orgao l))
                    || str_in (lower texto_busca) (lower (Licitacao.numero l)))
                 r
      | _ => r
      end
  end.
Proof.
  unfold passo, presente, predicado.
  destruct c.
  - destruct (Filtros.tipos f) as [[|? ?]|]; reflexivity.
  - destruct (Filtros.status f) as [[|? ?]|]; reflexivity.
  - destruct (Filtros.ufs f) as [[|? ?]|]; reflexivity.
  - destruct (Filtros.cidades f) as [[|? ?]|]; reflexivity.
  - destruct (Filtros.valor_min f); reflexivity.
  - destruct (Filtros.valor_max f); reflexivity.
  - destruct (Filtros.data_abertura_inicio f); reflexivity.
  - destruct (Filtros.data_abertura_fim f); reflexivity.
  - destruct (Filtros.texto_busca f) as [[|? ?]|]; reflexivity.
Qed.

Lemma filtrar_passos (R : list Licitacao.t) (f : Filtros.t) (limite offset : Z) :
  filtrar R f limite offset
  = (slice (aplicar f ordem_documentada R) offset (offset + limite),
     len (aplicar f ordem_documentada R)).
Proof.
  unfold aplicar, ordem_documentada. cbn [fold_left].
  rewrite !passo_unfold. reflexivity.
Qed.

Lemma filter_filter (p q : Licitacao.t -> bool) (l : list Licitacao.t) :
  filter q (filter p l) = filter (fun x => p x && q x) l.
Proof.
  induction l as [|x l IH]; simpl; [reflexivity|].
  destruct (p x); simpl; [destruct (q x)|]; now rewrite IH.
Qed.

Lemma filter_true (l : list Licitacao.t) : filter (fun _ => true) l = l.
Proof. induction l; simpl; congruence. Qed.

Lemma aplicar_filter (f : Filtros.t) (cs : list Criterio) (R : list Licitacao.t) :
  aplicar f cs R
  = filter (fun l => forallb (fun c => implb (presente c f) (predicado c f l)) cs)
           R.
Proof.
  unfold aplicar. revert R.
  induction cs as [|c cs IH]; intros R; simpl.
  - symmetry. apply filter_true.
  - rewrite IH. unfold passo.
    destruct (presente c f); simpl.
    + apply filter_filter.
    + reflexivity.
Qed.

Lemma forallb_perm {A} (p : A -> bool) (xs ys : list A) :
  Permutation xs ys -> forallb p xs = forallb p ys.
Proof.
  induction 1; simpl.
  - reflexivity.
  - now rewrite IHPermutation.
  - destruct (p x), (p y); reflexivity.
  - congruence.
Qed.

(** The result of [filtrar_licitacoes]: the page out of the records that
    pass every present criterion, and their number. *)
Lemma filtrar_spec (R : list Licitacao.t) (f : Filtros.t) (limite offset : Z) :
  filtrar R f limite offset
  = (slice (filter (satisfaz_todos f) R) offset (offset + limite),
     len (filter (satisfaz_todos f) R)).
Proof. rewrite filtrar_passos, aplicar_filter. reflexivity. Qed.

End EngineFacts.

Lemma presente_vazio (c : Criterio) : presente c Filtros.vazio = false.
Proof. destruct c; reflexivity. Qed.

Section FilterClaims.
Context {CM : CaseMap}.

Lemma satisfaz_todos_vazio (l : Licitacao.t) :
  satisfaz_todos Filtros.vazio l = true.
Proof. reflexivity. Qed.

Lemma pagina_correta
    (R : list Licitacao.t) (f : Filtros.t) (limite offset : Z) (l : Licitacao.t) :
  In l (fst (filtrar R f limite offset)) -> In l R /\ satisfaz_presentes f l.
Proof.
  rewrite filtrar_spec; simpl. intros Hl.
  apply slice_incl, filter_In in Hl as [HR Hs].
  split; [assumption | now apply satisfaz_todos_iff].
Qed.

Lemma filter_todos (R : list Licitacao.t) :
  filter (satisfaz_todos Filtros.vazio) R = R.
Proof.
  induction R as [|x R IH]; cbn [filter]; [reflexivity|].
  rewrite satisfaz_todos_vazio. now rewrite IH.
Qed.

(** C2 (as amended).  Every record of the returned page is a record of the
    collection that satisfies every present criterion, for any offset and
    limit; and when the page is the whole working set (offset 0, limit at
    least the total), every record of the collection that is not returned
    violates a present criterion. *)
Theorem filtrar_correto_e_completo
    (R : list Licitacao.t) (f : Filtros.t) (limite offset : Z) :
  (forall l, In l (fst (filtrar R f limite offset)) ->
             In l R /\ satisfaz_presentes f l)
  /\ (offset = 0 -> snd (filtrar R f limite offset) <= limite ->
      forall l, In l R -> ~ In l (fst (filtrar R f limite offset)) ->
                viola_algum f l).
Proof.
  split.
  - intros l. apply pagina_correta.
  - rewrite filtrar_spec; simpl.
    intros -> Htot l HR Hn. rewrite slice_all in Hn by exact Htot.
    apply nao_satisfaz_viola.
    destruct (satisfaz_todos f l) eqn:E; [|reflexivity].
    exfalso. apply Hn, filter_In. now split.
Qed.

(** C3.  The total is the number of records that satisfy every present
    criterion; offset and limit have no part in it; without criteria it is
    the size of the collection. *)
Theorem total_antes_da_paginacao
    (R : list Licitacao.t) (f : Filtros.t) (limite offset : Z) :
  snd (filtrar R f limite offset) = len (filter (satisfaz_todos f) R)
  /\ (forall l, satisfaz_todos f l = true <-> satisfaz_presentes f l)
  /\ (forall limite' offset',
        snd (filtrar R f limite' offset') = snd (filtrar R f limite offset))
  /\ snd (filtrar R Filtros.vazio limite offset) = len R.
Proof.
  split; [now rewrite filtrar_spec|].
  split; [intros l; apply satisfaz_todos_iff|].
  split; [intros; now rewrite !filtrar_spec|].
  rewrite filtrar_spec. simpl. now rewrite filter_todos.
Qed.

(** C4.  With a non-negative offset and a positive limit the page has
    [max 0 (min limite (total - offset))] records when the offset is at most
    the size of the working set, and is empty beyond it. *)
Theorem tamanho_da_pagina
    (R : list Licitacao.t) (f : Filtros.t) (limite offset : Z) :
  0 <= offset -> 0 < limite ->
  let pagina := fst (filtrar R f limite offset) in
  let total := snd (filtrar R f limite offset) in
  (offset <= total -> len pagina = Z.max 0 (Z.min limite (total - offset)))
  /\ (total < offset -> pagina = []).
Proof.
  intros Ho Hl. rewrite filtrar_spec. simpl. split.
  - intros H. now apply slice_length.
  - intros H. now apply slice_beyond.
Qed.

(** C7.  The narrowing steps commute: taken in any order they leave the
    working set the code computes, hence the same page and the same total. *)
Theorem criterios_comutam
    (R : list Licitacao.t) (f : Filtros.t) (cs : list Criterio) :
  Permutation cs ordem_documentada ->
  aplicar f cs R = aplicar f ordem_documentada R
  /\ forall limite offset,
       filtrar R f limite offset
       = (slice (aplicar f cs R) offset (offset + limite),
          len (aplicar f cs R)).
Proof.
  intros Hp.
  assert (E : aplicar f cs R = aplicar f ordem_documentada R).
  { rewrite !aplicar_filter. apply filter_ext. intros l.
    now apply forallb_perm. }
  split; [exact E|]. intros. rewrite E. apply filtrar_passos.
Qed.

(** C8 (as amended).  A record without estimated value counts as 0 against
    a minimum bound, so it passes exactly when the bound is at most 0; it
    counts as +inf against a maximum bound, so it fails every finite bound
    and passes only the bound +inf. *)
Theorem valor_ausente (l : Licitacao.t) :
  Licitacao.valor_estimado l = None ->
  (forall m, fst (filtrar [l] (so_valor_min m) 100 0)
             = if float_leb m (of_Z 0) then [l] else [])
  /\ (forall q, fst (filtrar [l] (so_valor_max (Fin q)) 100 0) = [])
  /\ fst (filtrar [l] (so_valor_max Inf) 100 0) = [l]
  /\ (forall R f limite offset,
        In l (fst (filtrar R f limite offset)) ->
        (forall m, Filtros.valor_min f = Some m -> float_le m (of_Z 0))
        /\ (forall m, Filtros.valor_max f = Some m -> m = Inf)).
Proof.
  intros Hv. split; [|split; [|split]].
  - intros m. unfold filtrar, filtrar_licitacoes, so_valor_min; simpl.
    rewrite Hv; simpl. now destruct (float_leb m (of_Z 0)).
  - intros q. unfold filtrar, filtrar_licitacoes, so_valor_max; simpl.
    now rewrite Hv.
  - unfold filtrar, filtrar_licitacoes, so_valor_max; simpl. now rewrite Hv.
  - intros R f limite offset H.
    apply pagina_correta in H as [_ H]. split; intros m Hm.
    + specialize (H ValorMin). simpl in H. rewrite Hm, Hv in H.
      now apply H.
    + specialize (H ValorMax). simpl in H. rewrite Hm, Hv in H.
      specialize (H eq_refl m eq_refl). simpl in H.
      destruct m; [contradiction | reflexivity].
Qed.

End FilterClaims.

Section EndpointClaims.
Context {CM : CaseMap}.

(** C10.  POST /licitacoes/buscar passes neither limit, offset nor sort
    field: its data are the first 100 (at most) matching records, in the
    order of the collection, whatever the total it reports; on a collection
    of 101 matching records it reports 101 and returns 100. *)
Theorem buscar_devolve_os_cem_primeiros :
  (forall (base : list Licitacao.t) (f : Filtros.t),
      buscar_licitacoes base f
      = {| busca_dados := fst (filtrar base f 100 0);
           busca_total := snd (filtrar base f 100 0);
           busca_filtros_aplicados := f |}
      /\ busca_dados (buscar_licitacoes base f)
         = firstn 100 (filter (satisfaz_todos f) base)
      /\ busca_total (buscar_licitacoes base f)
         = len (filter (satisfaz_todos f) base)
      /\ len (busca_dados (buscar_licitacoes base f)) <= 100)
  /\ busca_total (buscar_licitacoes colecao_grande Filtros.vazio) = 101
  /\ busca_dados (buscar_licitacoes colecao_grande Filtros.vazio)
     = firstn 100 colecao_grande.
Proof.
  assert (G : forall base f,
             buscar_licitacoes base f
             = {| busca_dados := firstn 100 (filter (satisfaz_todos f) base);
                  busca_total := len (filter (satisfaz_todos f) base);
                  busca_filtros_aplicados := f |}).
  { intros base f. unfold buscar_licitacoes. rewrite filtrar_spec.
    change (0 + 100) with 100. rewrite slice_0 by lia. reflexivity. }
  split; [|split].
  - intros base f. split; [|split; [|split]].
    + unfold buscar_licitacoes. now destruct (filtrar base f 100 0).
    + now rewrite G.
    + now rewrite G.
    + rewrite G. cbn [busca_dados]. unfold len.
      pose proof (firstn_le_length 100 (filter (satisfaz_todos f) base)). lia.
  - rewrite G. cbn [busca_total]. rewrite filter_todos. reflexivity.
  - rewrite G. cbn [busca_dados]. now rewrite filter_todos.
Qed.

(** What GET /licitacoes answers: the page, then sorted. *)
Lemma obter_licitacoes_dados (base : list Licitacao.t) (f : Filtros.t)
    (limite offset : Z) (ordenar_por : option string) (ordem_desc : bool) :
  dados (obter_licitacoes base f limite offset ordenar_por ordem_desc)
  = ordenar ordenar_por ordem_desc
            (slice (filter (satisfaz_todos f) base) offset (offset + limite)).
Proof. unfold obter_licitacoes. rewrite filtrar_spec. reflexivity. Qed.

Lemma insert_length {K} (ltb : K -> K -> bool) (key : Licitacao.t -> K)
    (x : Licitacao.t) (l : list Licitacao.t) :
  length (insert ltb key x l) = S (length l).
Proof.
  induction l as [|y l IH]; simpl; [reflexivity|].
  destruct (ltb (key y) (key x)); simpl; [now rewrite IH | reflexivity].
Qed.

Lemma sort_length {K} (ltb : K -> K -> bool) (key : Licitacao.t -> K)
    (reverse : bool) (l : list Licitacao.t) :
  length (sort ltb key reverse l) = length l.
Proof.
  assert (G : forall l, length (stable_sort ltb key l) = length l).
  { clear l. induction l as [|x l IH]; simpl; [reflexivity|].
    now rewrite insert_length, IH. }
  unfold sort. destruct reverse.
  - now rewrite length_rev, G, length_rev.
  - apply G.
Qed.

Lemma ordenar_length (ordenar_por : option string) (ordem_desc : bool)
    (l : list Licitacao.t) :
  length (ordenar ordenar_por ordem_desc l) = length l.
Proof.
  unfold ordenar. destruct ordenar_por as [[|c s]|]; try reflexivity.
  destruct (list_in _ _ _); [|reflexivity].
  repeat (match goal with
          | |- context [if ?b then _ else _] => destruct b
          end; try apply sort_length); reflexivity.
Qed.

(** When a single page holds the whole working set the two orders of
    operations agree. *)
Lemma obter_licitacoes_pagina_unica (base : list Licitacao.t) (f : Filtros.t)
    (limite : Z) (ordenar_por : option string) (ordem_desc : bool) :
  total (obter_licitacoes base f limite 0 ordenar_por ordem_desc) <= limite ->
  dados (obter_licitacoes base f limite 0 ordenar_por ordem_desc)
  = ordenar_depois_paginar base f limite 0 ordenar_por ordem_desc.
Proof.
  rewrite obter_licitacoes_dados. unfold obter_licitacoes, ordenar_depois_paginar.
  rewrite filtrar_spec. cbn [total]. intros H. change (0 + limite) with limite.
  rewrite !slice_all; [reflexivity | | exact H].
  unfold len in *. now rewrite ordenar_length.
Qed.

End EndpointClaims.

(** ** The claims at concrete inputs *)

(** C1.  GET /licitacoes sorts the page it got from [filtrar_licitacoes],
    not the filtered subset: on the mock collection, without criteria, by
    opening date ascending, limit 2 and offset 0, it answers records 2 and 1
    (the first two of the collection, sorted), where ordering the subset
    and then slicing gives records 5 and 2. *)
Theorem obter_licitacoes_ordena_so_a_pagina :
  map Licitacao.id
      (dados (obter_licitacoes MOCK_LICITACOES Filtros.vazio 2 0
                               (Some "data_abertura") false))
  = [2; 1]
  /\ map Licitacao.id
         (ordenar_depois_paginar MOCK_LICITACOES Filtros.vazio 2 0
                                 (Some "data_abertura") false)
     = [5; 2]
  /\ dados (obter_licitacoes MOCK_LICITACOES Filtros.vazio 2 0
                             (Some "data_abertura") false)
     <> ordenar_depois_paginar MOCK_LICITACOES Filtros.vazio 2 0
                               (Some "data_abertura") false.
Proof.
  split; [reflexivity|]. split; [reflexivity|].
  intros H. apply (f_equal (map Licitacao.id)) in H. vm_compute in H.
  discriminate H.
Qed.

(** C2, the claim as written: with the default limit of 100 a collection
    of 101 records and no criterion leaves record 101 out of the matched
    sequence although it violates nothing. *)
Lemma filtrar_completude_falha :
  ~ (forall (R : list Licitacao.t) (f : Filtros.t),
        (forall l, In l (fst (filtrar R f 100 0)) -> satisfaz_presentes f l)
        /\ (forall l, In l R -> ~ In l (fst (filtrar R f 100 0)) ->
                      viola_algum f l)).
Proof.
  intros H. destruct (H colecao_grande Filtros.vazio) as [_ Hc].
  destruct (Hc (registro 101)) as [c [Hp _]].
  - apply in_map, in_seq. lia.
  - intros Hin. apply (in_map Licitacao.id) in Hin. vm_compute in Hin.
    repeat (destruct Hin as [Hin|Hin]; [discriminate Hin|]). exact Hin.
  - rewrite presente_vazio in Hp. discriminate Hp.
Qed.

Lemma filtrar_correto_e_completo_witness :
  satisfaz_presentes (so_tipos [CONCORRENCIA]) (nth 1 MOCK_LICITACOES sem_valor)
  /\ viola_algum (so_tipos [CONCORRENCIA]) (nth 0 MOCK_LICITACOES sem_valor).
Proof.
  split.
  - apply (proj1 (filtrar_correto_e_completo MOCK_LICITACOES
                    (so_tipos [CONCORRENCIA]) 100 0)).
    vm_compute. left. reflexivity.
  - apply (proj2 (filtrar_correto_e_completo MOCK_LICITACOES
                    (so_tipos [CONCORRENCIA]) 100 0) eq_refl).
    + vm_compute. intros H; discriminate H.
    + simpl. now left.
    + vm_compute. intros [H|H]; [discriminate H | exact H].
Defined.

Lemma tamanho_da_pagina_witness :
  0 <= 4 /\ 0 < 2
  /\ len (fst (filtrar MOCK_LICITACOES Filtros.vazio 2 4)) = 1
  /\ fst (filtrar MOCK_LICITACOES Filtros.vazio 2 6) = [].
Proof.
  assert (H0 : 0 <= 4) by (intros H; discriminate H).
  assert (H1 : 0 < 2) by reflexivity.
  assert (H2 : 0 <= 6) by (intros H; discriminate H).
  split; [exact H0|]. split; [exact H1|]. split.
  - apply (proj1 (tamanho_da_pagina MOCK_LICITACOES Filtros.vazio H0 H1)).
    intros H; discriminate H.
  - apply (proj2 (tamanho_da_pagina MOCK_LICITACOES Filtros.vazio H2 H1)).
    reflexivity.
Defined.

Lemma criterios_comutam_witness :
  Permutation (rev ordem_documentada) ordem_documentada
  /\ aplicar (so_tipos [PREGAO]) (rev ordem_documentada) MOCK_LICITACOES
     = aplicar (so_tipos [PREGAO]) ordem_documentada MOCK_LICITACOES.
Proof.
  assert (Hp : Permutation (rev ordem_documentada) ordem_documentada)
    by (apply Permutation_sym, Permutation_rev).
  split; [exact Hp|].
  apply (proj1 (criterios_comutam MOCK_LICITACOES (so_tipos [PREGAO]) Hp)).
Defined.

(** C8, the claim as written: a record without estimated value does not
    pass a maximum bound of 1000. *)
Lemma sem_valor_reprovado_no_maximo :
  ~ (forall (l : Licitacao.t) (m : float),
        Licitacao.valor_estimado l = None ->
        In l (fst (filtrar [l] (so_valor_max m) 100 0))).
Proof.
  intros H. specialize (H sem_valor (of_Z 1000) eq_refl).
  vm_compute in H. exact H.
Qed.

Lemma valor_ausente_witness :
  Licitacao.valor_estimado sem_valor = None
  /\ fst (filtrar [sem_valor] (so_valor_min (of_Z 1)) 100 0) = []
  /\ fst (filtrar [sem_valor] (so_valor_max (of_Z 1000)) 100 0) = [].
Proof.
  split; [reflexivity|]. split.
  - apply (proj1 (valor_ausente sem_valor eq_refl) (of_Z 1)).
  - apply (proj1 (proj2 (valor_ausente sem_valor eq_refl)) (inject_Z 1000)).
Defined.

(** ** Statistics *)

Lemma dict_get_set {V} (d : dict V) (k k' : string) (v : V) :
  dict_get (dict_set d k v) k'
  = if String.eqb k k' then Some v else dict_get d k'.
Proof.
  induction d as [|[k0 v0] d IH]; simpl.
  - reflexivity.
  - destruct (String.eqb k0 k) eqn:E; simpl.
    + apply String.eqb_eq in E; subst k0.
      destruct (String.eqb k k'); reflexivity.
    + destruct (String.eqb k0 k') eqn:E2.
      * apply String.eqb_eq in E2; subst k0.
        rewrite String.eqb_sym, E. reflexivity.
      * apply IH.
Qed.

Lemma dict_set_keys {V} (d : dict V) (k k' : string) (v : V) :
  In k' (map fst (dict_set d k v)) <-> k' = k \/ In k' (map fst d).
Proof.
  induction d as [|[k0 v0] d IH]; simpl.
  - intuition.
  - destruct (String.eqb k0 k) eqn:E; simpl.
    + apply String.eqb_eq in E; subst k0. intuition.
    + rewrite IH. intuition.
Qed.

Lemma dict_set_NoDup {V} (d : dict V) (k : string) (v : V) :
  NoDup (map fst d) -> NoDup (map fst (dict_set d k v)).
Proof.
  induction d as [|[k0 v0] d IH]; simpl; intros H.
  - constructor; [intros [] | constructor].
  - inversion H as [|? ? Hn Hd]; subst.
    destruct (String.eqb k0 k) eqn:E; simpl.
    + apply String.eqb_eq in E; subst k0. now constructor.
    + constructor; [|now apply IH].
      rewrite dict_set_keys. intros [->|Hin]; [|contradiction].
      rewrite String.eqb_refl in E. discriminate E.
Qed.

Lemma ocorrencias_nonneg chave ls k : 0 <= ocorrencias chave ls k.
Proof. unfold ocorrencias, len. lia. Qed.

Lemma ocorrencias_cons chave l ls k :
  ocorrencias chave (l :: ls) k
  = (if String.eqb (chave l) k then 1 else 0) + ocorrencias chave ls k.
Proof.
  unfold ocorrencias, len. cbn [filter].
  destruct (String.eqb (chave l) k); cbn [length]; lia.
Qed.

(** The counting loop, from any dict reached so far. *)
Lemma contar_desde (chave : Licitacao.t -> string) (ls : list Licitacao.t)
    (count : dict Z) (k : string) :
  dict_get
    (fold_left (fun count licitacao =>
                  let k := chave licitacao in
                  dict_set count k (get_or (dict_get count k) 0 + 1))
               ls count) k
  = match dict_get count k with
    | Some v => Some (v + ocorrencias chave ls k)
    | None => contagem_esperada chave ls k
    end.
Proof.
  revert count. induction ls as [|l ls IH]; intros count.
  - cbn [fold_left]. unfold contagem_esperada, ocorrencias, len. simpl.
    destruct (dict_get count k); [f_equal; lia | reflexivity].
  - cbn [fold_left]. rewrite IH. cbv zeta. rewrite dict_get_set.
    unfold contagem_esperada. rewrite ocorrencias_cons.
    pose proof (ocorrencias_nonneg chave ls k) as Hn.
    destruct (String.eqb (chave l) k) eqn:E.
    + apply String.eqb_eq in E. rewrite E.
      destruct (dict_get count k) as [v|]; simpl get_or.
      * f_equal. lia.
      * destruct (1 + ocorrencias chave ls k =? 0) eqn:Z0;
          [apply Z.eqb_eq in Z0; lia | f_equal; lia].
    + rewrite Z.add_0_l. reflexivity.
Qed.

Lemma contar_spec (chave : Licitacao.t -> string) (ls : list Licitacao.t)
    (k : string) :
  dict_get (contar chave ls) k = contagem_esperada chave ls k.
Proof. unfold contar. now rewrite contar_desde. Qed.

Lemma contar_NoDup (chave : Licitacao.t -> string) (ls : list Licitacao.t) :
  NoDup (map fst (contar chave ls)).
Proof.
  unfold contar.
  assert (G : forall count : dict Z,
             NoDup (map fst count) ->
             NoDup (map fst
               (fold_left (fun count licitacao =>
                             let k := chave licitacao in
                             dict_set count k (get_or (dict_get count k) 0 + 1))
                          ls count))).
  { induction ls as [|l ls IH]; intros count H; cbn [fold_left].
    - exact H.
    - apply IH. now apply dict_set_NoDup. }
  apply G. constructor.
Qed.

(** C9.  On the five mock records the statistics are: 5 records, a total
    estimated value of 18,950,000, and by status 3 "aberta", 1
    "em_andamento", 1 "encerrada".  On any collection each grouped count
    holds, for every key, the number of records with that key, and nothing
    for a key that no record has; no key is listed twice. *)
Theorem estatisticas_contam_o_observado :
  (total_licitacoes (obter_estatisticas MOCK_LICITACOES) = 5
   /\ valor_total_estimado (obter_estatisticas MOCK_LICITACOES)
      = of_Z 18950000
   /\ distribuicao_por_status (obter_estatisticas MOCK_LICITACOES)
      = [("aberta", 3); ("em_andamento", 1); ("encerrada", 1)])
  /\ forall (base : list Licitacao.t) (k : string),
       dict_get (distribuicao_por_tipo (obter_estatisticas base)) k
       = contagem_esperada (fun l => tipo_value (Licitacao.tipo l)) base k
       /\ dict_get (distribuicao_por_status (obter_estatisticas base)) k
          = contagem_esperada (fun l => status_value (Licitacao.status l)) base k
       /\ dict_get (distribuicao_por_uf (obter_estatisticas base)) k
          = contagem_esperada (fun l => uf_value (Licitacao.uf l)) base k
       /\ NoDup (map fst (distribuicao_por_tipo (obter_estatisticas base)))
       /\ NoDup (map fst (distribuicao_por_status (obter_estatisticas base)))
       /\ NoDup (map fst (distribuicao_por_uf (obter_estatisticas base)))
       /\ total_licitacoes (obter_estatisticas base) = len base.
Proof.
  split.
  - split; [reflexivity|]. split; [reflexivity|]. reflexivity.
  - intros base k. unfold obter_estatisticas; cbv zeta.
    cbn [distribuicao_por_tipo distribuicao_por_status distribuicao_por_uf
         total_licitacoes].
    repeat split; try apply contar_spec; try apply contar_NoDup.
Qed.

(** ** The normaliser *)

Section NormalizerClaims.
Context {CM : CaseMap}.
Local Open Scope list_scope.

Lemma normalizar_acumula (items : list json) (acc : list Normalizada.t) :
  fold_left normalizar_passo items acc = acc ++ sobreviventes items.
Proof.
  revert acc. induction items as [|item items IH]; intros acc; simpl.
  - now rewrite app_nil_r.
  - rewrite IH. unfold normalizar_passo.
    destruct (normalizar_item item) as [r|e]; simpl.
    + now rewrite <- app_assoc.
    + reflexivity.
Qed.

Lemma sobreviventes_app (xs ys : list json) :
  sobreviventes (xs ++ ys) = sobreviventes xs ++ sobreviventes ys.
Proof. apply flat_map_app. Qed.

Lemma normalizar_dados_spec (dados_pncp : dict json) (items : list json) :
  py_iter (get_or (dict_get dados_pncp "data") (JArr [])) = Ok items ->
  normalizar_dados_pncp dados_pncp = Ok (sobreviventes items).
Proof.
  intros H. unfold normalizar_dados_pncp. rewrite H. simpl.
  now rewrite normalizar_acumula.
Qed.

Lemma normalizar_item_sem_chaves (fields : list (string * json)) :
  (forall k, In k chaves_reconhecidas -> dict_get fields k = None) ->
  normalizar_item (JObj fields) = Ok registro_fallback.
Proof.
  intros H. unfold normalizar_item, py_get.
  rewrite !H by (simpl; tauto). simpl.
  unfold mapear_tipo_pncp, mapear_status_pncp, py_upper.
  rewrite upper_empty. reflexivity.
Qed.

(** C5.  An item none of whose recognised keys is present is not dropped:
    it yields the record of fallback defaults, of type [PREGAO] and status
    [ABERTA], at its place in the output.  The type and status lookups go
    through [upper], so they do not depend on the case of the code, and a
    code that is empty or not in the table gives [PREGAO] and [ABERTA]. *)
Theorem normalizar_preenche_com_padroes :
  (forall fields : list (string * json),
      (forall k, In k chaves_reconhecidas -> dict_get fields k = None) ->
      normalizar_item (JObj fields) = Ok registro_fallback
      /\ forall resto antes depois,
           normalizar_dados_pncp
             (("data", JArr (antes ++ JObj fields :: depois)) :: resto)
           = Ok (sobreviventes antes ++ registro_fallback
                                     :: sobreviventes depois))
  /\ (Normalizada.tipo registro_fallback = PREGAO
      /\ Normalizada.status registro_fallback = ABERTA)
  /\ (forall a b, upper a = upper b ->
                  mapear_tipo_pncp (JStr a) = mapear_tipo_pncp (JStr b)
                  /\ mapear_status_pncp (JStr a) = mapear_status_pncp (JStr b))
  /\ (forall a, dict_get mapeamento_tipo (upper a) = None ->
                mapear_tipo_pncp (JStr a) = Ok PREGAO)
  /\ (forall a, dict_get mapeamento_status (upper a) = None ->
                mapear_status_pncp (JStr a) = Ok ABERTA)
  /\ mapear_tipo_pncp (JStr "") = Ok PREGAO
  /\ mapear_status_pncp (JStr "") = Ok ABERTA
  /\ (@mapear_tipo_pncp ascii_case (JStr "Tomada_Precos") = Ok TOMADA_PRECOS
      /\ @mapear_tipo_pncp ascii_case (JStr "leilao") = Ok LEILAO
      /\ @mapear_tipo_pncp ascii_case (JStr "dispensa") = Ok PREGAO
      /\ @mapear_status_pncp ascii_case (JStr "Em_Andamento") = Ok EM_ANDAMENTO
      /\ @mapear_status_pncp ascii_case (JStr "revogada") = Ok ABERTA).
Proof.
  split; [|split; [|split; [|split; [|split; [|split; [|split]]]]]].
  - intros fields H.
    pose proof (normalizar_item_sem_chaves fields H) as Hi.
    split; [exact Hi|]. intros resto antes depois.
    rewrite (normalizar_dados_spec _ (items := antes ++ JObj fields :: depois))
      by reflexivity.
    rewrite sobreviventes_app. unfold sobreviventes at 2.
    cbn [flat_map]. rewrite Hi. reflexivity.
  - split; reflexivity.
  - intros a b H. unfold mapear_tipo_pncp, mapear_status_pncp, py_upper.
    rewrite H. split; reflexivity.
  - intros a H. unfold mapear_tipo_pncp, py_upper, bind. now rewrite H.
  - intros a H. unfold mapear_status_pncp, py_upper, bind. now rewrite H.
  - unfold mapear_tipo_pncp, py_upper. rewrite upper_empty. reflexivity.
  - unfold mapear_status_pncp, py_upper. rewrite upper_empty. reflexivity.
  - repeat split.
Qed.

(** C6.  Whenever the payload's data can be iterated, normalisation
    returns: its result is the records of the items that normalise, in the
    order of the items; an item that raises is left out and the items
    before and after it are normalised as if it were not there. *)
Theorem normalizar_pula_item_com_erro
    (dados_pncp : dict json) (items : list json) :
  py_iter (get_or (dict_get dados_pncp "data") (JArr [])) = Ok items ->
  normalizar_dados_pncp dados_pncp = Ok (sobreviventes items)
  /\ (forall antes item depois e,
        items = antes ++ item :: depois ->
        normalizar_item item = Raise e ->
        normalizar_dados_pncp dados_pncp
        = Ok (sobreviventes antes ++ sobreviventes depois))
  /\ (forall antes item depois licitacao,
        items = antes ++ item :: depois ->
        normalizar_item item = Ok licitacao ->
        normalizar_dados_pncp dados_pncp
        = Ok (sobreviventes antes ++ licitacao :: sobreviventes depois)).
Proof.
  intros H. pose proof (normalizar_dados_spec dados_pncp H) as E.
  split; [exact E|]. split.
  - intros antes item depois e -> Hi. rewrite E, sobreviventes_app.
    unfold sobreviventes at 2. cbn [flat_map]. now rewrite Hi.
  - intros antes item depois r -> Hi. rewrite E, sobreviventes_app.
    unfold sobreviventes at 2. cbn [flat_map]. now rewrite Hi.
Qed.

End NormalizerClaims.

Local Open Scope list_scope.

Lemma normalizar_preenche_com_padroes_witness :
  (forall k, In k chaves_reconhecidas ->
             dict_get [("chaveDesconhecida", JInt 1)] k = None)
  /\ normalizar_dados_pncp
       [("data", JArr [item_bem_formado; JObj [("chaveDesconhecida", JInt 1)]]);
        ("totalElements", JInt 2)]
     = Ok (sobreviventes [item_bem_formado] ++ [registro_fallback]).
Proof.
  assert (H : forall k, In k chaves_reconhecidas ->
                        dict_get [("chaveDesconhecida", JInt 1)] k = None).
  { intros k Hk. simpl in Hk.
    repeat (destruct Hk as [<-|Hk]; [reflexivity|]). destruct Hk. }
  split; [exact H|].
  apply (proj2 (proj1 (normalizar_preenche_com_padroes (CM := ascii_case))
                  [("chaveDesconhecida", JInt 1)] H)
           [("totalElements", JInt 2)] [item_bem_formado] []).
Defined.

Lemma normalizar_pula_item_com_erro_witness :
  py_iter (get_or (dict_get
                     [("data", JArr [item_bem_formado; JStr "x";
                                     JObj [("situacaoLicitacao", JNull)];
                                     JObj []])] "data") (JArr []))
  = Ok [item_bem_formado; JStr "x"; JObj [("situacaoLicitacao", JNull)];
        JObj []]
  /\ normalizar_dados_pncp
       [("data", JArr [item_bem_formado; JStr "x";
                       JObj [("situacaoLicitacao", JNull)]; JObj []])]
     = Ok (sobreviventes [item_bem_formado; JStr "x";
                          JObj [("situacaoLicitacao", JNull)]; JObj []])
  /\ length (sobreviventes [item_bem_formado; JStr "x";
                            JObj [("situacaoLicitacao", JNull)]; JObj []])
     = 2%nat.
Proof.
  split; [reflexivity|]. split.
  - apply (proj1 (normalizar_pula_item_com_erro (CM := ascii_case)
                    [("data", JArr [item_bem_formado; JStr "x";
                                    JObj [("situacaoLicitacao", JNull)];
                                    JObj []])] eq_refl)).
  - reflexivity.
Defined.

(** ** Sorting *)

Section SortFacts.
Variables (A K : Type) (ltb : K -> K -> bool) (key : A -> K).

Lemma insert_perm (x : A) (l : list A) :
  Permutation (insert ltb key x l) (x :: l).
Proof.
  induction l as [|y l IH]; simpl; [reflexivity|].
  destruct (ltb (key y) (key x)); [|reflexivity].
  rewrite IH. apply perm_swap.
Qed.

Lemma stable_sort_perm (l : list A) : Permutation (stable_sort ltb key l) l.
Proof.
  induction l as [|x l IH]; simpl; [reflexivity|].
  rewrite insert_perm. now constructor.
Qed.

Lemma sort_perm (reverse : bool) (l : list A) :
  Permutation (sort ltb key reverse l) l.
Proof.
  unfold sort. destruct reverse.
  - rewrite <- Permutation_rev, stable_sort_perm. symmetry.
    apply Permutation_rev.
  - apply stable_sort_perm.
Qed.

(** Stability only needs keys that are level with a third one not to be
    below one another. *)
Hypothesis nivel :
  forall k a b, mesma_chave ltb k a = true -> mesma_chave ltb k b = true ->
                ltb b a = false.

Lemma filter_insert (k : K) (x : A) (s : list A) :
  filter (fun y => mesma_chave ltb k (key y)) (insert ltb key x s)
  = if mesma_chave ltb k (key x)
    then x :: filter (fun y => mesma_chave ltb k (key y)) s
    else filter (fun y => mesma_chave ltb k (key y)) s.
Proof.
  induction s as [|y s IH]; simpl.
  - now destruct (mesma_chave ltb k (key x)).
  - destruct (ltb (key y) (key x)) eqn:E; simpl.
    + rewrite IH.
      destruct (mesma_chave ltb k (key y)) eqn:Ey,
               (mesma_chave ltb k (key x)) eqn:Ex; try reflexivity.
      rewrite (nivel _ _ _ Ex Ey) in E. discriminate E.
    + now destruct (mesma_chave ltb k (key x)).
Qed.

Lemma sort_stable (k : K) (reverse : bool) (l : list A) :
  filter (fun y => mesma_chave ltb k (key y)) (sort ltb key reverse l)
  = filter (fun y => mesma_chave ltb k (key y)) l.
Proof.
  assert (G : forall l,
             filter (fun y => mesma_chave ltb k (key y)) (stable_sort ltb key l)
             = filter (fun y => mesma_chave ltb k (key y)) l).
  { clear l. induction l as [|x l IH]; simpl; [reflexivity|].
    rewrite filter_insert, IH. reflexivity. }
  unfold sort. destruct reverse; [|apply G].
  now rewrite filter_rev, G, filter_rev, rev_involutive.
Qed.

(** Sortedness needs a total preorder on the keys. *)
Hypothesis asym : forall a b, ltb a b = true -> ltb b a = false.
Hypothesis trans :
  forall a b c, ltb b a = false -> ltb c b = false -> ltb c a = false.

Lemma insert_sorted (x : A) (s : list A) :
  StronglySorted (em_ordem ltb key false) s ->
  StronglySorted (em_ordem ltb key false) (insert ltb key x s).
Proof.
  induction 1 as [|y s Hs IH Hy]; simpl.
  - repeat constructor.
  - destruct (ltb (key y) (key x)) eqn:E.
    + constructor; [exact IH|].
      eapply Permutation_Forall; [symmetry; apply insert_perm|].
      constructor; [|exact Hy]. unfold em_ordem. now apply asym.
    + constructor; [now constructor|].
      constructor; [exact E|].
      eapply Forall_impl; [|exact Hy]. unfold em_ordem.
      intros z Hz. eapply trans; eassumption.
Qed.

Lemma sorted_rev (reverse : bool) (s : list A) :
  StronglySorted (em_ordem ltb key reverse) s ->
  StronglySorted (em_ordem ltb key (negb reverse)) (rev s).
Proof.
  assert (Snoc : forall R (l : list A) a,
             StronglySorted R l -> Forall (fun x => R x a) l ->
             StronglySorted R (l ++ [a])).
  { intros R l a Hl. induction Hl as [|b l Hl IH Hb]; intros Ha; simpl.
    - repeat constructor.
    - inversion Ha; subst. constructor; [now apply IH|].
      apply Forall_app. split; [exact Hb | now repeat constructor]. }
  induction 1 as [|a s Hs IH Ha]; simpl; [constructor|].
  apply Snoc; [exact IH|].
  apply Forall_rev. eapply Forall_impl; [|exact Ha].
  intros z. unfold em_ordem. now destruct reverse.
Qed.

Lemma sort_sorted (reverse : bool) (l : list A) :
  StronglySorted (em_ordem ltb key reverse) (sort ltb key reverse l).
Proof.
  assert (G : forall l,
             StronglySorted (em_ordem ltb key false) (stable_sort ltb key l)).
  { clear l. induction l as [|x l IH]; simpl; [constructor|].
    now apply insert_sorted. }
  unfold sort. destruct reverse; [|apply G].
  apply (sorted_rev (reverse := false)), G.
Qed.

End SortFacts.

(** ** The three sort keys are totally preordered *)

Section OrdemTotal.
Variables (K : Type) (leb ltb : K -> K -> bool).
Hypothesis leb_total : forall a b, leb a b = true \/ leb b a = true.
Hypothesis leb_trans :
  forall a b c, leb a b = true -> leb b c = true -> leb a c = true.
Hypothesis ltb_leb : forall a b, ltb a b = negb (leb b a).

Lemma ltb_asym (a b : K) : ltb a b = true -> ltb b a = false.
Proof.
  rewrite !ltb_leb. destruct (leb_total a b) as [H|H]; rewrite H; simpl.
  - reflexivity.
  - discriminate.
Qed.

Lemma ltb_trans (a b c : K) :
  ltb b a = false -> ltb c b = false -> ltb c a = false.
Proof.
  rewrite !ltb_leb, !negb_false_iff. intros H1 H2. eapply leb_trans; eassumption.
Qed.

Lemma ltb_nivel (k a b : K) :
  mesma_chave ltb k a = true -> mesma_chave ltb k b = true -> ltb b a = false.
Proof.
  unfold mesma_chave. rewrite !ltb_leb, !negb_involutive, !andb_true_iff.
  intros [H1 H2] [H3 H4]. rewrite negb_false_iff.
  eapply leb_trans; eassumption.
Qed.

End OrdemTotal.

Lemma date_leb_total (a b : date) : date_leb a b = true \/ date_leb b a = true.
Proof. rewrite !date_leb_iff. unfold date_le. lia. Qed.

Lemma date_leb_trans (a b c : date) :
  date_leb a b = true -> date_leb b c = true -> date_leb a c = true.
Proof. rewrite !date_leb_iff. unfold date_le. lia. Qed.

Lemma float_leb_total (a b : float) :
  float_leb a b = true \/ float_leb b a = true.
Proof.
  rewrite !float_leb_iff. destruct a as [p|], b as [q|]; simpl; auto.
  destruct (Qlt_le_dec p q) as [H|H]; [left; now apply Qlt_le_weak | now right].
Qed.

Lemma float_leb_trans (a b c : float) :
  float_leb a b = true -> float_leb b c = true -> float_leb a c = true.
Proof.
  rewrite !float_leb_iff. destruct a, b, c; simpl; try tauto.
  apply Qle_trans.
Qed.

Lemma ascii_compare_lt_trans (a b c : ascii) :
  Ascii.compare a b = Lt -> Ascii.compare b c = Lt -> Ascii.compare a c = Lt.
Proof.
  unfold Ascii.compare. rewrite !N.compare_lt_iff. apply N.lt_trans.
Qed.

Lemma str_compare_lt_trans (a b c : string) :
  String.compare a b = Lt -> String.compare b c = Lt -> String.compare a c = Lt.
Proof.
  revert b c. induction a as [|x a IH]; intros [|y b] [|z c]; simpl;
    try discriminate; try reflexivity.
  destruct (Ascii.compare x y) eqn:Exy; try discriminate;
    destruct (Ascii.compare y z) eqn:Eyz; try discriminate; intros H1 H2.
  - apply Ascii.compare_eq_iff in Exy, Eyz. subst.
    rewrite (proj2 (N.compare_eq_iff _ _) eq_refl : Ascii.compare z z = Eq).
    now apply (IH b c).
  - apply Ascii.compare_eq_iff in Exy. subst. now rewrite Eyz.
  - apply Ascii.compare_eq_iff in Eyz. subst. now rewrite Exy.
  - now rewrite (ascii_compare_lt_trans _ _ _ Exy Eyz).
Qed.

Lemma str_ltb_leb (a b : string) : str_ltb a b = negb (String.leb b a).
Proof.
  unfold str_ltb, String.leb. rewrite (String.compare_antisym a b).
  now destruct (String.compare b a).
Qed.

Lemma str_leb_trans (a b c : string) :
  String.leb a b = true -> String.leb b c = true -> String.leb a c = true.
Proof.
  unfold String.leb.
  destruct (String.compare a b) eqn:Eab; try discriminate;
    destruct (String.compare b c) eqn:Ebc; try discriminate; intros _ _.
  - apply String.compare_eq_iff in Eab. subst. now rewrite Ebc.
  - apply String.compare_eq_iff in Eab. subst. now rewrite Ebc.
  - apply String.compare_eq_iff in Ebc. subst. now rewrite Eab.
  - now rewrite (str_compare_lt_trans _ _ _ Eab Ebc).
Qed.

(** ** GET /licitacoes: what the sorting block guarantees *)

Section SortClaims.
Context {CM : CaseMap}.

(** X1.  Sorting neither drops nor duplicates: the data answered are a
    permutation of the page [filtrar_licitacoes] returned, whatever the
    sort field and direction. *)
Theorem obter_licitacoes_permuta_a_pagina
    (base : list Licitacao.t) (f : Filtros.t) (limite offset : Z)
    (ordenar_por : option string) (ordem_desc : bool) :
  Permutation
    (dados (obter_licitacoes base f limite offset ordenar_por ordem_desc))
    (fst (filtrar base f limite offset))
  /\ total (obter_licitacoes base f limite offset ordenar_por ordem_desc)
     = snd (filtrar base f limite offset).
Proof.
  unfold obter_licitacoes. destruct (filtrar base f limite offset) as [p t].
  split; [|reflexivity]. cbn [dados fst]. unfold ordenar.
  destruct ordenar_por as [[|c s]|]; try reflexivity.
  destruct (list_in _ _ _); [|reflexivity].
  repeat (match goal with
          | |- context [if ?b then _ else _] => destruct b
          end; try apply sort_perm); reflexivity.
Qed.

(** X2.  A sort field outside the allow-list, an empty one or none at all
    leaves the page in collection order; it is not an error. *)
Theorem ordenar_campo_desconhecido
    (ordenar_por : string) (ordem_desc : bool) (l : list Licitacao.t) :
  ordenar_por <> "data_abertura" -> ordenar_por <> "valor_estimado" ->
  ordenar_por <> "numero" ->
  ordenar (Some ordenar_por) ordem_desc l = l
  /\ ordenar None ordem_desc l = l.
Proof.
  intros H1 H2 H3. split; [|reflexivity].
  unfold ordenar. destruct ordenar_por as [|c s]; [reflexivity|].
  unfold list_in. cbn [existsb].
  apply String.eqb_neq in H1, H2, H3. now rewrite H1, H2, H3.
Qed.

(** X3.  With an allowed field the answer is sorted on it: ascending, no
    record is followed by one with a smaller key; descending, by one with
    a larger key.  A missing estimated value sorts as 0. *)
Theorem ordenar_ordena (ordem_desc : bool) (l : list Licitacao.t) :
  StronglySorted (em_ordem date_ltb Licitacao.data_abertura ordem_desc)
                 (ordenar (Some "data_abertura") ordem_desc l)
  /\ StronglySorted (em_ordem float_ltb chave_valor ordem_desc)
                    (ordenar (Some "valor_estimado") ordem_desc l)
  /\ StronglySorted (em_ordem str_ltb Licitacao.numero ordem_desc)
                    (ordenar (Some "numero") ordem_desc l).
Proof.
  split; [|split].
  - apply sort_sorted.
    + apply (@ltb_asym _ date_leb date_ltb date_leb_total). reflexivity.
    + apply (@ltb_trans _ date_leb date_ltb date_leb_trans). reflexivity.
  - apply sort_sorted.
    + apply (@ltb_asym _ float_leb float_ltb float_leb_total). reflexivity.
    + apply (@ltb_trans _ float_leb float_ltb float_leb_trans). reflexivity.
  - apply sort_sorted.
    + apply (@ltb_asym _ String.leb str_ltb String.leb_total str_ltb_leb).
    + apply (@ltb_trans _ String.leb str_ltb str_leb_trans str_ltb_leb).
Qed.

(** X4.  The sort is stable in both directions: the records whose key is
    level with a given one keep the order they had in the page. *)
Theorem ordenar_estavel (ordem_desc : bool) (l : list Licitacao.t) :
  (forall k,
      filter (fun y => mesma_chave date_ltb k (Licitacao.data_abertura y))
             (ordenar (Some "data_abertura") ordem_desc l)
      = filter (fun y => mesma_chave date_ltb k (Licitacao.data_abertura y)) l)
  /\ (forall k,
         filter (fun y => mesma_chave float_ltb k (chave_valor y))
                (ordenar (Some "valor_estimado") ordem_desc l)
         = filter (fun y => mesma_chave float_ltb k (chave_valor y)) l)
  /\ (forall k,
         filter (fun y => mesma_chave str_ltb k (Licitacao.numero y))
                (ordenar (Some "numero") ordem_desc l)
         = filter (fun y => mesma_chave str_ltb k (Licitacao.numero y)) l).
Proof.
  split; [|split]; intros k.
  - apply sort_stable.
    apply (@ltb_nivel _ date_leb date_ltb date_leb_trans). reflexivity.
  - apply sort_stable.
    apply (@ltb_nivel _ float_leb float_ltb float_leb_trans). reflexivity.
  - apply sort_stable.
    apply (@ltb_nivel _ String.leb str_ltb str_leb_trans str_ltb_leb).
Qed.

End SortClaims.

(** ** More on the filter engine and its pages *)

Lemma Subseq_refl {A} (l : list A) : Subseq l l.
Proof. induction l; [constructor | now apply Subseq_take]. Qed.

Lemma Subseq_trans {A} (l1 l2 l3 : list A) :
  Subseq l1 l2 -> Subseq l2 l3 -> Subseq l1 l3.
Proof.
  intros H12 H23. revert l1 H12.
  induction H23 as [|x l2 l3 H IH|x l2 l3 H IH]; intros l1 H12.
  - exact H12.
  - constructor. now apply IH.
  - inversion H12; subst.
    + constructor. now apply IH.
    + apply Subseq_take. now apply IH.
Qed.

Lemma Subseq_filter {A} (p : A -> bool) (l : list A) : Subseq (filter p l) l.
Proof.
  induction l as [|x l IH]; simpl; [constructor|].
  destruct (p x); [now apply Subseq_take | now apply Subseq_skip].
Qed.

Lemma Subseq_nil_l {A} (l : list A) : Subseq [] l.
Proof. induction l; now constructor. Qed.

Lemma Subseq_firstn {A} (n : nat) (l : list A) : Subseq (firstn n l) l.
Proof.
  revert l. induction n as [|n IH]; intros [|x l]; simpl.
  - constructor.
  - apply Subseq_nil_l.
  - constructor.
  - apply Subseq_take, IH.
Qed.

Lemma Subseq_skipn {A} (n : nat) (l : list A) : Subseq (skipn n l) l.
Proof.
  revert l. induction n as [|n IH]; intros [|x l]; simpl.
  - constructor.
  - apply Subseq_refl.
  - constructor.
  - apply Subseq_skip, IH.
Qed.

Lemma Subseq_slice {A} (l : list A) (a b : Z) : Subseq (slice l a b) l.
Proof.
  unfold slice. eapply Subseq_trans; [apply Subseq_firstn | apply Subseq_skipn].
Qed.

Lemma Subseq_length {A} (l1 l2 : list A) :
  Subseq l1 l2 -> (length l1 <= length l2)%nat.
Proof. induction 1; simpl; lia. Qed.

Lemma firstn_add {A} (a b : nat) (l : list A) :
  firstn (a + b) l = (firstn a l ++ firstn b (skipn a l))%list.
Proof.
  revert l. induction a as [|a IH]; intros [|x l]; simpl;
    try reflexivity.
  - now rewrite firstn_nil.
  - now rewrite IH.
Qed.

(** A slice with bounds [0 <= s <= e] without the clamping. *)
Lemma slice_nonneg {A} (l : list A) (s e : Z) :
  0 <= s -> s <= e ->
  slice l s e = firstn (Z.to_nat (e - s)) (skipn (Z.to_nat s) l).
Proof.
  intros Hs He. unfold slice, clamp_index.
  destruct (s <? 0) eqn:E1; [apply Z.ltb_lt in E1; lia|].
  destruct (e <? 0) eqn:E2; [apply Z.ltb_lt in E2; lia|].
  set (n := Z.of_nat (length l)).
  destruct (Z.le_gt_cases s n) as [Hsn|Hsn].
  - replace (Z.min s n) with s by lia.
    destruct (Z.le_gt_cases e n) as [Hen|Hen].
    + now replace (Z.min e n) with e by lia.
    + replace (Z.min e n) with n by lia.
      rewrite !firstn_all2; try reflexivity; rewrite length_skipn; subst n; lia.
  - replace (Z.min s n) with n by lia. replace (Z.min e n) with n by lia.
    rewrite !skipn_all2 by (subst n; lia). now rewrite !firstn_nil.
Qed.

Lemma slice_tile {A} (l : list A) (offset a b : Z) :
  0 <= offset -> 0 <= a -> 0 <= b ->
  (slice l offset (offset + a) ++ slice l (offset + a) (offset + a + b))%list
  = slice l offset (offset + (a + b)).
Proof.
  intros Ho Ha Hb. rewrite !slice_nonneg by lia.
  replace (offset + a - offset) with a by lia.
  replace (offset + a + b - (offset + a)) with b by lia.
  replace (offset + (a + b) - offset) with (a + b) by lia.
  rewrite !Z2Nat.inj_add by lia. rewrite firstn_add, skipn_skipn.
  now rewrite (Nat.add_comm (Z.to_nat a)).
Qed.

Lemma slice_nil {A} (a b : Z) : slice (@nil A) a b = [].
Proof. unfold slice. now rewrite skipn_nil, firstn_nil. Qed.

Section MoreFilterClaims.
Context {CM : CaseMap}.

(** X5.  The page is the collection with records removed: the filter
    keeps the order of the collection and returns no record twice over,
    for any offset and limit. *)
Theorem filtrar_preserva_a_ordem
    (R : list Licitacao.t) (f : Filtros.t) (limite offset : Z) :
  Subseq (fst (filtrar R f limite offset)) R.
Proof.
  rewrite filtrar_spec. cbn [fst].
  eapply Subseq_trans; [apply Subseq_slice | apply Subseq_filter].
Qed.

(** X6.  Consecutive pages tile the result: the page at [offset] of size
    [a] followed by the page at [offset + a] of size [b] is the page at
    [offset] of size [a + b]; no record is lost or repeated between
    pages. *)
Theorem paginas_consecutivas
    (R : list Licitacao.t) (f : Filtros.t) (offset a b : Z) :
  0 <= offset -> 0 <= a -> 0 <= b ->
  (fst (filtrar R f a offset) ++ fst (filtrar R f b (offset + a)))%list
  = fst (filtrar R f (a + b) offset).
Proof.
  intros Ho Ha Hb. rewrite !filtrar_spec. cbn [fst]. now apply slice_tile.
Qed.

(** X7.  Bounds: the total lies between 0 and the size of the collection,
    the page never has more records than the total, nor, for a
    non-negative offset and limit, more than the limit. *)
Theorem filtrar_limites
    (R : list Licitacao.t) (f : Filtros.t) (limite offset : Z) :
  0 <= snd (filtrar R f limite offset) <= len R
  /\ len (fst (filtrar R f limite offset)) <= snd (filtrar R f limite offset)
  /\ (0 <= offset -> 0 <= limite ->
      len (fst (filtrar R f limite offset)) <= limite).
Proof.
  rewrite filtrar_spec. cbn [fst snd]. unfold len.
  pose proof (Subseq_length (Subseq_filter (satisfaz_todos f) R)).
  pose proof (Subseq_length
                (Subseq_slice (filter (satisfaz_todos f) R) offset
                              (offset + limite))).
  split; [lia|]. split; [lia|]. intros Ho Hl.
  rewrite slice_nonneg by lia. rewrite length_firstn. lia.
Qed.

(** X8.  An empty list of types, statuses, states or cities, or an empty
    search text, is the same as no criterion: it selects everything, not
    nothing. *)
Theorem criterio_vazio_e_ausente
    (R : list Licitacao.t) (f : Filtros.t) (limite offset : Z) :
  filtrar R (sem_vazios f) limite offset = filtrar R f limite offset.
Proof.
  destruct f as [tipos status ufs cidades vmin vmax inicio fim texto].
  unfold filtrar, sem_vazios; cbn [Filtros.tipos Filtros.status Filtros.ufs
    Filtros.cidades Filtros.valor_min Filtros.valor_max
    Filtros.data_abertura_inicio Filtros.data_abertura_fim
    Filtros.texto_busca].
  destruct tipos as [[|? ?]|]; destruct status as [[|? ?]|];
    destruct ufs as [[|? ?]|]; destruct cidades as [[|? ?]|];
    destruct texto as [[|? ?]|]; reflexivity.
Qed.

(** X9.  An inverted range matches nothing: with a finite minimum above
    the maximum, or a start date after the end date, the page is empty and
    the total is 0. *)
Theorem faixa_invertida_nao_casa
    (R : list Licitacao.t) (f : Filtros.t) (limite offset : Z) :
  faixa_invertida f -> filtrar R f limite offset = ([], 0).
Proof.
  intros Hf. rewrite filtrar_spec.
  assert (E : filter (satisfaz_todos f) R = []).
  { induction R as [|l R IH]; cbn [filter]; [reflexivity|].
    destruct (satisfaz_todos f l) eqn:Es; [|exact IH]. exfalso.
    apply satisfaz_todos_iff in Es. destruct Hf as [Hv|Hd].
    - destruct Hv as [a [b [Ha [Hb Hlt]]]].
      pose proof (Es ValorMin) as H1. pose proof (Es ValorMax) as H2.
      cbn [presente Satisfaz] in H1, H2. rewrite Ha in H1. rewrite Hb in H2.
      specialize (H1 eq_refl _ eq_refl). specialize (H2 eq_refl _ eq_refl).
      destruct (Licitacao.valor_estimado l) as [[q|]|]; simpl in H1, H2;
        try contradiction.
      apply (Qlt_not_le _ _ Hlt). eapply Qle_trans; eassumption.
    - destruct Hd as [d1 [d2 [H1' [H2' Hlt]]]].
      pose proof (Es DataInicio) as H1. pose proof (Es DataFim) as H2.
      cbn [presente Satisfaz] in H1, H2. rewrite H1' in H1. rewrite H2' in H2.
      specialize (H1 eq_refl _ eq_refl). specialize (H2 eq_refl _ eq_refl).
      unfold date_ltb in Hlt. apply negb_true_iff in Hlt.
      assert (date_leb d1 d2 = true); [|congruence].
      apply date_leb_iff. unfold date_le in *. lia. }
  rewrite E. now rewrite slice_nil.
Qed.

(** X10.  Records are judged one by one: the total over two collections
    put together is the sum of their totals, and with a page wide enough
    the result is the two results one after the other. *)
Theorem filtrar_colecoes_juntas
    (R1 R2 : list Licitacao.t) (f : Filtros.t) (limite offset : Z) :
  snd (filtrar (R1 ++ R2) f limite offset)
  = snd (filtrar R1 f limite offset) + snd (filtrar R2 f limite offset)
  /\ (fst (filtrar (R1 ++ R2) f (len (R1 ++ R2)) 0)
      = fst (filtrar R1 f (len R1) 0) ++ fst (filtrar R2 f (len R2) 0))%list.
Proof.
  rewrite !filtrar_spec. cbn [fst snd]. rewrite filter_app. split.
  - unfold len. rewrite length_app. lia.
  - pose proof (Subseq_length (Subseq_filter (satisfaz_todos f) R1)).
    pose proof (Subseq_length (Subseq_filter (satisfaz_todos f) R2)).
    rewrite !slice_all; [reflexivity | | |];
      unfold len; rewrite ?length_app; lia.
Qed.

(** X11.  [tem_proxima_pagina] tells the truth: for a non-negative offset
    and a positive limit it is set exactly when the next page, at
    [offset + limite], is not empty. *)
Theorem tem_proxima_pagina_correto
    (base : list Licitacao.t) (f : Filtros.t) (limite offset : Z)
    (ordenar_por : option string) (ordem_desc : bool) :
  0 <= offset -> 0 < limite ->
  tem_proxima_pagina
    (obter_licitacoes base f limite offset ordenar_por ordem_desc) = true
  <-> dados (obter_licitacoes base f limite (offset + limite)
                              ordenar_por ordem_desc) <> [].
Proof.
  intros Ho Hl. rewrite obter_licitacoes_dados.
  unfold obter_licitacoes. rewrite filtrar_spec. cbn [tem_proxima_pagina].
  set (ws := filter (satisfaz_todos f) base).
  rewrite Z.ltb_lt.
  assert (N : forall l : list Licitacao.t, l <> [] <-> 0 < len l).
  { intros [|x l]; unfold len; simpl; split; intros H; try lia; congruence. }
  rewrite N.
  replace (len (ordenar ordenar_por ordem_desc
                        (slice ws (offset + limite) (offset + limite + limite))))
    with (len (slice ws (offset + limite) (offset + limite + limite)))
    by (unfold len; now rewrite ordenar_length).
  destruct (Z.le_gt_cases (offset + limite) (len ws)) as [H|H].
  - rewrite slice_length by lia. lia.
  - rewrite slice_beyond by lia. change (len (@nil Licitacao.t)) with 0. lia.
Qed.

End MoreFilterClaims.

(** ** Lookup, enumeration and statistics endpoints *)

(** X12.  GET /licitacoes/{id} answers the first record of the collection
    with that id, and raises 404 (and nothing else) exactly when no record
    has it. *)
Theorem obter_licitacao_por_id_correto
    (base : list Licitacao.t) (licitacao_id : Z) :
  (forall l, obter_licitacao_por_id base licitacao_id = Responde l ->
             Licitacao.id l = licitacao_id
             /\ exists antes depois,
                  base = (antes ++ l :: depois)%list
                  /\ forall x, In x antes -> Licitacao.id x <> licitacao_id)
  /\ (obter_licitacao_por_id base licitacao_id = Levanta (HTTP 404)
      <-> forall x, In x base -> Licitacao.id x <> licitacao_id)
  /\ (forall e, obter_licitacao_por_id base licitacao_id = Levanta e ->
                e = HTTP 404).
Proof.
  unfold obter_licitacao_por_id. cbv zeta. split; [|split].
  - induction base as [|x R IH]; simpl; [discriminate|].
    destruct (Licitacao.id x =? licitacao_id) eqn:E.
    + intros l [= <-]. apply Z.eqb_eq in E. split; [exact E|].
      exists [], R. split; [reflexivity | intros ? []].
    + intros l Hl. destruct (IH l Hl) as [Hid [antes [depois [-> Hn]]]].
      split; [exact Hid|]. exists (x :: antes), depois.
      split; [reflexivity|]. intros y [<-|Hy]; [|now apply Hn].
      now apply Z.eqb_neq.
  - destruct (find _ base) as [l|] eqn:E.
    + split; [discriminate|]. intros H.
      apply find_some in E as [Hin Hid]. apply Z.eqb_eq in Hid.
      now apply H in Hin.
    + split; [|reflexivity]. intros _ x Hx.
      apply (find_none _ _ E) in Hx. now apply Z.eqb_neq.
  - intros e. destruct (find _ base); [discriminate|]. now intros [= <-].
Qed.

(** X13.  The enumeration endpoints list the value of every member of
    their enum exactly once; distinct members have distinct values. *)
Theorem enumeracoes_completas :
  ((forall t, In (tipo_value t) obter_tipos_licitacao)
   /\ NoDup obter_tipos_licitacao)
  /\ ((forall s, In (status_value s) obter_status_licitacao)
      /\ NoDup obter_status_licitacao)
  /\ ((forall u, In (uf_value u) obter_ufs) /\ NoDup obter_ufs)
  /\ (forall a b, tipo_value a = tipo_value b -> a = b)
  /\ (forall a b, status_value a = status_value b -> a = b)
  /\ (forall a b, uf_value a = uf_value b -> a = b).
Proof.
  split; [|split; [|split; [|split; [|split]]]];
    [split | split | split
     | intros a b; destruct a, b; simpl; intros H;
       try reflexivity; discriminate H ..].
  - intros t. apply in_map. destruct t; simpl; tauto.
  - unfold obter_tipos_licitacao. simpl.
    repeat (constructor;
            [simpl; intros H;
             repeat (destruct H as [H|H]; [discriminate H|]); exact H|]).
    constructor.
  - intros t. apply in_map. destruct t; simpl; tauto.
  - unfold obter_status_licitacao. simpl.
    repeat (constructor;
            [simpl; intros H;
             repeat (destruct H as [H|H]; [discriminate H|]); exact H|]).
    constructor.
  - intros t. apply in_map. destruct t; simpl; tauto.
  - unfold obter_ufs. simpl.
    repeat (constructor;
            [simpl; intros H;
             repeat (destruct H as [H|H]; [discriminate H|]); exact H|]).
    constructor.
Qed.

Lemma soma_valores_incr (d : dict Z) (k : string) :
  soma_valores (dict_set d k (get_or (dict_get d k) 0 + 1))
  = soma_valores d + 1.
Proof.
  induction d as [|[k' v'] d IH]; simpl; [reflexivity|].
  destruct (String.eqb k' k); simpl; [lia|]. rewrite IH. lia.
Qed.

Lemma soma_contar (chave : Licitacao.t -> string) (ls : list Licitacao.t) :
  soma_valores (contar chave ls) = len ls.
Proof.
  unfold contar.
  assert (G : forall count : dict Z,
             soma_valores
               (fold_left (fun count licitacao =>
                             let k := chave licitacao in
                             dict_set count k (get_or (dict_get count k) 0 + 1))
                          ls count)
             = soma_valores count + len ls).
  { induction ls as [|l ls IH]; intros count; cbn [fold_left].
    - unfold len. simpl. lia.
    - rewrite IH. cbv zeta. rewrite soma_valores_incr.
      unfold len. cbn [length]. lia. }
  rewrite G. reflexivity.
Qed.

(** X14.  In every distribution of the statistics the counts add up to
    the number of records: each record is counted once by type, once by
    status and once by state. *)
Theorem distribuicoes_somam_o_total (base : list Licitacao.t) :
  soma_valores (distribuicao_por_tipo (obter_estatisticas base))
  = total_licitacoes (obter_estatisticas base)
  /\ soma_valores (distribuicao_por_status (obter_estatisticas base))
     = total_licitacoes (obter_estatisticas base)
  /\ soma_valores (distribuicao_por_uf (obter_estatisticas base))
     = total_licitacoes (obter_estatisticas base).
Proof.
  unfold obter_estatisticas. cbv zeta.
  cbn [distribuicao_por_tipo distribuicao_por_status distribuicao_por_uf
       total_licitacoes].
  repeat split; apply soma_contar.
Qed.

(** ** GET /cidades *)

Lemma str_ltb_irrefl (a : string) : str_ltb a a = false.
Proof.
  unfold str_ltb. pose proof (String.compare_antisym a a) as H.
  destruct (String.compare a a); try reflexivity; discriminate H.
Qed.

Lemma str_ltb_strict (x y : string) :
  str_ltb y x = false -> x <> y -> str_ltb x y = true.
Proof.
  unfold str_ltb. rewrite (String.compare_antisym x y).
  destruct (String.compare y x) eqn:E; simpl; try reflexivity; try discriminate.
  apply String.compare_eq_iff in E. congruence.
Qed.

Lemma sorted_strict (l : list string) :
  StronglySorted (em_ordem str_ltb (fun c => c) false) l -> NoDup l ->
  StronglySorted (fun a b => str_ltb a b = true) l.
Proof.
  induction 1 as [|x l Hs IH Hx]; intros Hn; [constructor|].
  inversion Hn as [|? ? Hnx Hnl]; subst. constructor; [now apply IH|].
  rewrite Forall_forall in *. intros y Hy.
  apply str_ltb_strict; [now apply Hx | congruence].
Qed.

(** Two strictly ascending lists with the same members are the same list. *)
Lemma sorted_unique (l1 l2 : list string) :
  StronglySorted (fun a b => str_ltb a b = true) l1 ->
  StronglySorted (fun a b => str_ltb a b = true) l2 ->
  (forall x, In x l1 <-> In x l2) -> l1 = l2.
Proof.
  intros H1. revert l2.
  induction H1 as [|a l1 Hs1 IH Ha]; intros l2 H2 Hm.
  - destruct l2 as [|b l2]; [reflexivity|].
    destruct (proj2 (Hm b) (or_introl eq_refl)).
  - destruct H2 as [|b l2 Hs2 Hb].
    + destruct (proj1 (Hm a) (or_introl eq_refl)).
    + rewrite Forall_forall in Ha, Hb.
      assert (Lt : forall x y, str_ltb x y = true -> str_ltb y x = true -> False).
      { intros x y Hxy Hyx.
        rewrite (@ltb_asym _ String.leb str_ltb String.leb_total str_ltb_leb
                           _ _ Hxy) in Hyx. discriminate Hyx. }
      assert (E : a = b).
      { destruct (proj1 (Hm a) (or_introl eq_refl)) as [E|Hin]; [now symmetry|].
        destruct (proj2 (Hm b) (or_introl eq_refl)) as [E|Hin']; [exact E|].
        exfalso. apply (Lt a b); [now apply Ha | now apply Hb]. }
      subst b. f_equal. apply IH; [exact Hs2|].
      intros x. split; intros Hx.
      * destruct (proj1 (Hm x) (or_intror Hx)) as [E|Hin]; [|exact Hin].
        subst x. apply Ha in Hx. rewrite str_ltb_irrefl in Hx. discriminate Hx.
      * destruct (proj2 (Hm x) (or_intror Hx)) as [E|Hin]; [|exact Hin].
        subst x. apply Hb in Hx. rewrite str_ltb_irrefl in Hx. discriminate Hx.
Qed.

Section Cidades.
Variable py_set : list string -> list string.
Hypothesis py_set_NoDup : forall xs, NoDup (py_set xs).
Hypothesis py_set_In : forall xs x, In x (py_set xs) <-> In x xs.

Lemma obter_cidades_spec (base : list Licitacao.t) (uf : option UF) :
  StronglySorted (fun a b => str_ltb a b = true) (obter_cidades base py_set uf)
  /\ forall c,
       In c (obter_cidades base py_set uf)
       <-> exists l, In l base /\ Licitacao.cidade l = c
                     /\ match uf with
                        | Some u => Licitacao.uf l = u
                        | None => True
                        end.
Proof.
  unfold obter_cidades. cbv zeta. split.
  - apply sorted_strict.
    + apply sort_sorted.
      * apply (@ltb_asym _ String.leb str_ltb String.leb_total str_ltb_leb).
      * apply (@ltb_trans _ String.leb str_ltb str_leb_trans str_ltb_leb).
    + eapply Permutation_NoDup; [symmetry; apply sort_perm|].
      apply py_set_NoDup.
  - intros c. split.
    + intros H. eapply Permutation_in in H; [|apply sort_perm].
      apply (proj1 (py_set_In _ _)) in H. destruct uf as [u|].
      * apply in_map_iff in H as [l [Hc Hl]]. apply filter_In in Hl as [Hl Hu].
        apply UF_beq_iff in Hu. eauto.
      * apply in_map_iff in H as [l [Hc Hl]]. eauto.
    + intros [l [Hl [Hc Hu]]].
      eapply Permutation_in; [symmetry; apply sort_perm|].
      apply py_set_In. destruct uf as [u|].
      * apply in_map_iff. exists l. split; [exact Hc|].
        apply filter_In. split; [exact Hl | now apply UF_beq_iff].
      * apply in_map_iff. eauto.
Qed.

(** X15.  GET /cidades answers the cities of the records of the given
    state (of all records without one), each once, in strictly ascending
    order, whatever order the set enumerates them in. *)
Theorem obter_cidades_correto (base : list Licitacao.t) (uf : option UF) :
  StronglySorted (fun a b => str_ltb a b = true) (obter_cidades base py_set uf)
  /\ forall c,
       In c (obter_cidades base py_set uf)
       <-> exists l, In l base /\ Licitacao.cidade l = c
                     /\ match uf with
                        | Some u => Licitacao.uf l = u
                        | None => True
                        end.
Proof. apply obter_cidades_spec. Qed.

End Cidades.

(** X16.  The answer of GET /cidades does not depend on the order in
    which [set] enumerates its elements. *)
Theorem obter_cidades_independe_do_set
    (set1 set2 : list string -> list string)
    (base : list Licitacao.t) (uf : option UF) :
  (forall xs, NoDup (set1 xs)) -> (forall xs x, In x (set1 xs) <-> In x xs) ->
  (forall xs, NoDup (set2 xs)) -> (forall xs x, In x (set2 xs) <-> In x xs) ->
  obter_cidades base set1 uf = obter_cidades base set2 uf.
Proof.
  intros N1 I1 N2 I2.
  destruct (obter_cidades_spec set1 N1 I1 base uf) as [S1 M1].
  destruct (obter_cidades_spec set2 N2 I2 base uf) as [S2 M2].
  apply sorted_unique; [exact S1 | exact S2|].
  intros x. now rewrite M1, M2.
Qed.

(** ** More on the normaliser *)

Lemma dict_get_In {V} (d : dict V) (k : string) (v : V) :
  dict_get d k = Some v -> In v (map snd d).
Proof.
  induction d as [|[k' v'] d IH]; simpl; [discriminate|].
  destruct (String.eqb k' k); [intros [= <-]; now left | auto].
Qed.

Section MoreNormalizerClaims.
Context {CM : CaseMap}.
Local Open Scope list_scope.

Lemma normalizar_item_valido (item : json) :
  match normalizar_item item with
  | Ok _ => item_valido item = true
  | Raise e => item_valido item = false /\ e = AttributeError
  end.
Proof.
  destruct item as [| | | | |items|d]; try (simpl; now split).
  unfold normalizar_item, item_valido, campo_texto, py_get.
  cbn [bind].
  destruct (dict_get d "modalidadeContratacao") as [[| | | | | |]|];
    cbn [get_or mapear_tipo_pncp py_upper bind andb]; try now split.
  - destruct (dict_get d "situacaoLicitacao") as [[| | | | | |]|];
      cbn [get_or mapear_status_pncp py_upper bind]; try now split.
  - destruct (dict_get d "situacaoLicitacao") as [[| | | | | |]|];
      cbn [get_or mapear_status_pncp py_upper bind]; try now split.
Qed.

Lemma sobreviventes_length (items : list json) :
  length (sobreviventes items) = length (filter item_valido items).
Proof.
  induction items as [|item items IH]; [reflexivity|].
  unfold sobreviventes in *. cbn [flat_map filter].
  pose proof (normalizar_item_valido item) as H.
  destruct (normalizar_item item) as [r|e].
  - rewrite H. cbn [app length]. now rewrite IH.
  - destruct H as [-> _]. cbn [app]. exact IH.
Qed.

(** X17.  An item is dropped exactly when it is not a JSON object, or
    carries a modality or situation code that is not a string (a null
    code drops the record, a missing one does not); the exception is
    always an AttributeError.  The output has one record per remaining
    item. *)
Theorem normalizar_descarta_so_os_invalidos (dados_pncp : dict json)
    (items : list json) :
  py_iter (get_or (dict_get dados_pncp "data") (JArr [])) = Ok items ->
  (forall item,
      (exists licitacao, normalizar_item item = Ok licitacao)
      <-> item_valido item = true)
  /\ (forall item e, normalizar_item item = Raise e -> e = AttributeError)
  /\ exists out,
       normalizar_dados_pncp dados_pncp = Ok out
       /\ len out = len (filter item_valido items).
Proof.
  intros H. split; [|split].
  - intros item. pose proof (normalizar_item_valido item) as Hi.
    destruct (normalizar_item item) as [r|e].
    + split; eauto.
    + destruct Hi as [-> _]. split; [intros [? ?]|]; discriminate.
  - intros item e He. pose proof (normalizar_item_valido item) as Hi.
    rewrite He in Hi. tauto.
  - exists (sobreviventes items). split.
    + now apply normalizar_dados_spec.
    + unfold len. now rewrite sobreviventes_length.
Qed.

(** X18.  The payload as a whole fails only on its ["data"]: the function
    raises (a TypeError) exactly when that value is null, a boolean or a
    number; a missing key, a list, an object or a string never raise. *)
Theorem normalizar_falha_so_sem_iteravel (dados_pncp : dict json) :
  (normalizar_dados_pncp dados_pncp = Raise TypeError
   <-> resposta_invalida (JObj dados_pncp))
  /\ (forall e, normalizar_dados_pncp dados_pncp = Raise e -> e = TypeError)
  /\ (dict_get dados_pncp "data" = None ->
      normalizar_dados_pncp dados_pncp = Ok []).
Proof.
  unfold normalizar_dados_pncp, resposta_invalida.
  split; [|split].
  - destruct (get_or (dict_get dados_pncp "data") (JArr []));
      simpl; split; intros H; try reflexivity; try discriminate H;
      try exact I; try contradiction.
  - intros e. destruct (get_or (dict_get dados_pncp "data") (JArr []));
      simpl; intros H; try discriminate H; now injection H.
  - intros ->. reflexivity.
Qed.

(** X19.  No upstream modality maps to [CONSULTA_PUBLICA], and both
    lookups answer for every string. *)
Theorem mapear_nunca_consulta_publica (modalidade situacao : string) :
  (exists t, mapear_tipo_pncp (JStr modalidade) = Ok t
             /\ t <> CONSULTA_PUBLICA)
  /\ exists s, mapear_status_pncp (JStr situacao) = Ok s.
Proof.
  unfold mapear_tipo_pncp, mapear_status_pncp, py_upper. cbn [bind]. split.
  - eexists. split; [reflexivity|].
    destruct (dict_get mapeamento_tipo (upper modalidade)) as [t|] eqn:E;
      cbn [get_or]; [|discriminate].
    apply dict_get_In in E. simpl in E.
    repeat (destruct E as [<-|E]; [discriminate|]). destruct E.
  - eexists. reflexivity.
Qed.

End MoreNormalizerClaims.

(** X20.  With the ASCII case mapping, the value of every internal status
    maps back to that status, and the value of every internal type but
    [consulta_publica] maps back to that type; [consulta_publica] falls to
    [PREGAO]. *)
Theorem mapear_valores_internos :
  (forall s, @mapear_status_pncp ascii_case (JStr (status_value s)) = Ok s)
  /\ (forall t, t <> CONSULTA_PUBLICA ->
                @mapear_tipo_pncp ascii_case (JStr (tipo_value t)) = Ok t)
  /\ @mapear_tipo_pncp ascii_case (JStr (tipo_value CONSULTA_PUBLICA))
     = Ok PREGAO.
Proof.
  split; [|split].
  - intros s. now destruct s.
  - intros t H. destruct t; try reflexivity. now contradiction H.
  - reflexivity.
Qed.

(** ** The upstream routes *)

Section UpstreamClaims.
Context {CM : CaseMap}.
Variable http_get :
  string -> dict json -> option (dict string) -> http_outcome.
Variable strftime : date -> string -> string.
Local Open Scope list_scope.

Lemma buscar_pncp_sem_resposta cnpj di df m p tp :
  (forall url params headers, sem_resposta (http_get url params headers)) ->
  buscar_licitacoes_pncp http_get cnpj di df m p tp
  = JObj [("data", JArr []); ("totalElements", JInt 0)].
Proof.
  intros H. unfold buscar_licitacoes_pncp. cbv zeta.
  match goal with |- context [http_get ?u ?ps ?h] =>
    pose proof (H u ps h) as Hs; destruct (http_get u ps h) as [sc body|]
  end; [|reflexivity].
  destruct (sc =? 200) eqn:E; [|reflexivity].
  apply Z.eqb_eq in E. subst sc. destruct body; [destruct Hs | reflexivity].
Qed.

Lemma buscar_transparencia_sem_resposta cod di df p :
  (forall url params headers, sem_resposta (http_get url params headers)) ->
  buscar_licitacoes_transparencia http_get cod di df p = JArr [].
Proof.
  intros H. unfold buscar_licitacoes_transparencia. cbv zeta.
  match goal with |- context [http_get ?u ?ps ?h] =>
    pose proof (H u ps h) as Hs; destruct (http_get u ps h) as [sc body|]
  end; [|reflexivity].
  destruct (sc =? 200) eqn:E; [|reflexivity].
  apply Z.eqb_eq in E. subst sc. destruct body; [destruct Hs | reflexivity].
Qed.

Lemma buscar_pncp_resposta (j : json) cnpj di df m p tp :
  (forall url params headers,
      http_get url params headers = HttpResposta 200 (Some j)) ->
  buscar_licitacoes_pncp http_get cnpj di df m p tp = j.
Proof.
  intros H. unfold buscar_licitacoes_pncp. cbv zeta. now rewrite H.
Qed.

(** X21.  An upstream that fails (exception, status other than 200, body
    that is not JSON) is invisible to the caller: the PNCP and
    Transparencia routes and the consolidated route with both sources
    answer normally, with no data and a total of 0. *)
Theorem upstream_indisponivel_responde_vazio :
  (forall url params headers, sem_resposta (http_get url params headers)) ->
  (forall cnpj di df m p tp,
      exists r, obter_licitacoes_pncp http_get strftime cnpj di df m p tp
                = Responde r
                /\ pncp_dados r = [] /\ pncp_total r = JInt 0)
  /\ (forall cod di df p,
         exists r, obter_licitacoes_transparencia http_get strftime cod di df p
                   = Responde r
                   /\ transp_dados r = JArr [] /\ transp_total r = 0)
  /\ (forall base di df cnpj m cod p tp,
         exists r, obter_licitacoes_consolidado http_get strftime base di df
                     cnpj m cod true true p tp = Responde r
                   /\ cons_dados r = [] /\ total_consolidado r = 0).
Proof.
  intros H. split; [|split].
  - intros. unfold obter_licitacoes_pncp. cbv zeta.
    rewrite buscar_pncp_sem_resposta by exact H.
    eexists. split; [reflexivity|]. split; reflexivity.
  - intros. unfold obter_licitacoes_transparencia. cbv zeta.
    rewrite buscar_transparencia_sem_resposta by exact H.
    eexists. split; [reflexivity|]. split; reflexivity.
  - intros. unfold obter_licitacoes_consolidado. cbv zeta.
    rewrite buscar_pncp_sem_resposta by exact H.
    rewrite buscar_transparencia_sem_resposta by exact H.
    eexists. split; [reflexivity|]. split; reflexivity.
Qed.

(** X22.  When PNCP answers 200 with the JSON [j], the PNCP route raises
    a 500 exactly when [j] is not an object or its ["data"] cannot be
    iterated; for an object with a list of items it answers the records of
    the items that normalise, and as total the upstream's
    ["totalElements"] (0 when missing), not the number of records. *)
Theorem obter_licitacoes_pncp_correto (j : json) cnpj di df m p tp :
  (forall url params headers,
      http_get url params headers = HttpResposta 200 (Some j)) ->
  (obter_licitacoes_pncp http_get strftime cnpj di df m p tp
   = Levanta (HTTP 500) <-> resposta_invalida j)
  /\ (forall d items,
         j = JObj d ->
         get_or (dict_get d "data") (JArr []) = JArr items ->
         exists r, obter_licitacoes_pncp http_get strftime cnpj di df m p tp
                   = Responde r
                   /\ pncp_dados r = sobreviventes items
                   /\ pncp_total r
                      = get_or (dict_get d "totalElements") (JInt 0)).
Proof.
  intros H. unfold obter_licitacoes_pncp. cbv zeta.
  rewrite (buscar_pncp_resposta (j:=j)) by exact H. split.
  - unfold resposta_invalida, normalizar_resposta_pncp, normalizar_dados_pncp.
    destruct j as [| | | | |items|d]; try (simpl; tauto).
    destruct (get_or (dict_get d "data") (JArr [])); simpl;
      split; intros Hx; try discriminate Hx; try contradiction;
      try reflexivity.
  - intros d items -> Hd. unfold normalizar_resposta_pncp.
    rewrite (normalizar_dados_spec d (items := items)) by (now rewrite Hd).
    cbn [py_get]. eexists. split; [reflexivity|]. split; reflexivity.
Qed.

(** With both sources switched off the consolidated route answers the
    whole collection as its single source "mock", whatever the upstreams
    would have said. *)
Lemma consolidado_sem_fontes (base : list Licitacao.t)
    di df cnpj m cod p tp :
  obter_licitacoes_consolidado http_get strftime base di df cnpj m cod
                               false false p tp
  = Responde {| fontes_consultadas :=
                  [("mock", {| fonte_total := JInt (len base);
                               fonte_recuperados := len base |})];
                cons_dados := map DoMock base;
                total_consolidado := len base |}.
Proof.
  unfold obter_licitacoes_consolidado. cbv zeta. cbn.
  unfold len. now rewrite length_map.
Qed.

(** X23.  Whenever the consolidated route answers: its total is the
    number of data it returns; mock records appear only when both sources
    are off; and, when Transparencia is off or gave a list, the total is
    the sum of the per-source "recuperados". *)
Theorem consolidado_totais (base : list Licitacao.t)
    di df cnpj m cod (incluir_pncp incluir_transparencia : bool) p tp
    (r : RespostaConsolidada) :
  obter_licitacoes_consolidado http_get strftime base di df cnpj m cod
    incluir_pncp incluir_transparencia p tp = Responde r ->
  total_consolidado r = len (cons_dados r)
  /\ (incluir_pncp || incluir_transparencia = true ->
      existsb e_do_mock (cons_dados r) = false)
  /\ (incluir_transparencia = false
      \/ (exists items,
             buscar_licitacoes_transparencia http_get cod
               (option_map (fun d => strftime d "%d/%m/%Y") di)
               (option_map (fun d => strftime d "%d/%m/%Y") df) p
             = JArr items) ->
      total_consolidado r = soma_recuperados (fontes_consultadas r)).
Proof.
  unfold obter_licitacoes_consolidado. cbv zeta.
  set (jp := buscar_licitacoes_pncp http_get cnpj _ _ m p tp).
  set (jt := buscar_licitacoes_transparencia http_get cod _ _ p).
  assert (M1 : forall ls : list Normalizada.t,
             existsb e_do_mock (map DoPncp ls) = false)
    by (induction ls; simpl; auto).
  assert (M2 : forall ls : list json,
             existsb e_do_mock (map DaTransparencia ls) = false)
    by (induction ls; simpl; auto).
  destruct incluir_pncp, incluir_transparencia; cbn [negb andb orb].
  - destruct (normalizar_resposta_pncp jp) as [lics|]; cbn [bind];
      [|discriminate].
    destruct (py_get jp "totalElements" (JInt 0)) as [tot|]; cbn [bind];
      [|discriminate].
    destruct (py_iter jt) as [items|] eqn:Ei; cbn [bind]; [|discriminate].
    intros [= <-]. cbn. split; [reflexivity|]. split.
    + intros _. now rewrite existsb_app, M1, M2.
    + intros [Hf|[its Hj]]; [discriminate Hf|].
      rewrite Hj in *. cbn in Ei. injection Ei as <-. cbn.
      unfold len. rewrite length_app, !length_map. lia.
  - destruct (normalizar_resposta_pncp jp) as [lics|]; cbn [bind];
      [|discriminate].
    destruct (py_get jp "totalElements" (JInt 0)) as [tot|]; cbn [bind];
      [|discriminate].
    intros [= <-]. cbn. split; [reflexivity|]. split.
    + intros _. apply M1.
    + intros _. unfold len. rewrite length_map. lia.
  - cbn [bind]. destruct (py_iter jt) as [items|] eqn:Ei; cbn [bind];
      [|discriminate].
    intros [= <-]. cbn. split; [reflexivity|]. split.
    + intros _. apply M2.
    + intros [Hf|[its Hj]]; [discriminate Hf|].
      rewrite Hj in *. cbn in Ei. injection Ei as <-. cbn.
      unfold len. rewrite length_map. lia.
  - cbn [bind]. intros [= <-]. cbn. split; [reflexivity|]. split.
    + discriminate.
    + intros _. unfold len. rewrite length_map. lia.
Qed.

End UpstreamClaims.

(** ** The properties above at concrete inputs *)

Lemma ordenar_campo_desconhecido_witness :
  "preco" <> "data_abertura"
  /\ ordenar (Some "preco") true MOCK_LICITACOES = MOCK_LICITACOES.
Proof.
  assert (H1 : "preco" <> "data_abertura") by discriminate.
  assert (H2 : "preco" <> "valor_estimado") by discriminate.
  assert (H3 : "preco" <> "numero") by discriminate.
  split; [exact H1|].
  apply (proj1 (ordenar_campo_desconhecido true MOCK_LICITACOES H1 H2 H3)).
Defined.

Lemma paginas_consecutivas_witness :
  0 <= 1 /\ 0 <= 2
  /\ (fst (filtrar MOCK_LICITACOES Filtros.vazio 2 1)
      ++ fst (filtrar MOCK_LICITACOES Filtros.vazio 2 (1 + 2)))%list
     = fst (filtrar MOCK_LICITACOES Filtros.vazio (2 + 2) 1).
Proof.
  assert (H1 : 0 <= 1) by (intros H; discriminate H).
  assert (H2 : 0 <= 2) by (intros H; discriminate H).
  split; [exact H1|]. split; [exact H2|].
  apply (paginas_consecutivas MOCK_LICITACOES Filtros.vazio H1 H2 H2).
Defined.

Lemma faixa_invertida_nao_casa_witness :
  faixa_invertida filtro_invertido
  /\ filtrar MOCK_LICITACOES filtro_invertido 100 0 = ([], 0).
Proof.
  assert (H : faixa_invertida filtro_invertido).
  { left. exists (inject_Z 10), (inject_Z 5).
    split; [reflexivity|]. split; reflexivity. }
  split; [exact H|].
  apply (faixa_invertida_nao_casa MOCK_LICITACOES 100 0 H).
Defined.

Lemma tem_proxima_pagina_correto_witness :
  0 <= 0 /\ 0 < 2
  /\ dados (obter_licitacoes MOCK_LICITACOES Filtros.vazio 2 (0 + 2)
                             (Some "numero") false) <> [].
Proof.
  assert (H1 : 0 <= 0) by (intros H; discriminate H).
  assert (H2 : 0 < 2) by reflexivity.
  split; [exact H1|]. split; [exact H2|].
  apply (proj1 (tem_proxima_pagina_correto MOCK_LICITACOES Filtros.vazio
                  (Some "numero") false H1 H2)).
  reflexivity.
Defined.

Lemma set_a_NoDup (xs : list string) : NoDup (set_a xs).
Proof. apply NoDup_nodup. Qed.

Lemma set_a_In (xs : list string) (x : string) : In x (set_a xs) <-> In x xs.
Proof. apply nodup_In. Qed.

Lemma set_b_NoDup (xs : list string) : NoDup (set_b xs).
Proof. apply NoDup_rev, NoDup_nodup. Qed.

Lemma set_b_In (xs : list string) (x : string) : In x (set_b xs) <-> In x xs.
Proof. unfold set_b. rewrite <- in_rev. apply nodup_In. Qed.

Lemma obter_cidades_correto_witness :
  (forall xs, NoDup (set_a xs))
  /\ StronglySorted (fun a b => str_ltb a b = true)
                    (obter_cidades MOCK_LICITACOES set_a None).
Proof.
  split; [exact set_a_NoDup|].
  apply (proj1 (obter_cidades_correto set_a set_a_NoDup set_a_In
                  MOCK_LICITACOES None)).
Defined.

Lemma obter_cidades_independe_do_set_witness :
  (forall xs, NoDup (set_b xs))
  /\ obter_cidades MOCK_LICITACOES set_a (Some SP)
     = obter_cidades MOCK_LICITACOES set_b (Some SP).
Proof.
  split; [exact set_b_NoDup|].
  apply (@obter_cidades_independe_do_set set_a set_b MOCK_LICITACOES (Some SP)
           set_a_NoDup set_a_In set_b_NoDup set_b_In).
Defined.

Lemma normalizar_descarta_so_os_invalidos_witness :
  py_iter (get_or (dict_get
                     [("data", JArr [item_bem_formado; JNull;
                                     JObj [("modalidadeContratacao", JNull)]])]
                     "data") (JArr []))
  = Ok [item_bem_formado; JNull; JObj [("modalidadeContratacao", JNull)]]
  /\ exists out,
       normalizar_dados_pncp
         [("data", JArr [item_bem_formado; JNull;
                         JObj [("modalidadeContratacao", JNull)]])]
       = Ok out
       /\ len out
          = len (filter item_valido
                        [item_bem_formado; JNull;
                         JObj [("modalidadeContratacao", JNull)]]).
Proof.
  split; [reflexivity|].
  apply (proj2 (proj2 (normalizar_descarta_so_os_invalidos (CM := ascii_case)
                         [("data", JArr [item_bem_formado; JNull;
                                         JObj [("modalidadeContratacao", JNull)]])]
                         eq_refl))).
Defined.

Lemma upstream_indisponivel_responde_vazio_witness :
  (forall url params headers, sem_resposta (http_fora_do_ar url params headers))
  /\ exists r,
       obter_licitacoes_pncp http_fora_do_ar strftime_vazio
                             (Some "00394460000141") None None None 1 100
       = Responde r
       /\ pncp_dados r = [] /\ pncp_total r = JInt 0.
Proof.
  assert (H : forall url params headers,
             sem_resposta (http_fora_do_ar url params headers))
    by (intros; exact I).
  split; [exact H|].
  apply (proj1 (@upstream_indisponivel_responde_vazio ascii_case
                  http_fora_do_ar strftime_vazio H)).
Defined.

Lemma obter_licitacoes_pncp_correto_witness :
  (forall url params headers,
      http_com_resposta url params headers
      = HttpResposta 200 (Some resposta_pncp_exemplo))
  /\ exists r,
       obter_licitacoes_pncp http_com_resposta strftime_vazio
                             None None None None 1 100
       = Responde r
       /\ pncp_dados r = sobreviventes [item_bem_formado; JNull]
       /\ pncp_total r = JInt 57.
Proof.
  assert (H : forall url params headers,
             http_com_resposta url params headers
             = HttpResposta 200 (Some resposta_pncp_exemplo))
    by reflexivity.
  split; [exact H|].
  apply (proj2 (@obter_licitacoes_pncp_correto ascii_case http_com_resposta
                  strftime_vazio resposta_pncp_exemplo
                  None None None None 1 100 H)
           _ [item_bem_formado; JNull] eq_refl eq_refl).
Defined.

Lemma consolidado_totais_witness :
  obter_licitacoes_consolidado http_com_resposta strftime_vazio
    MOCK_LICITACOES None None None None None true false 1 100
  = Responde
      {| fontes_consultadas :=
           [("pncp", {| fonte_total := JInt 57; fonte_recuperados := 1 |})];
         cons_dados := map DoPncp (sobreviventes [item_bem_formado; JNull]);
         total_consolidado := 1 |}
  /\ 1 = soma_recuperados
           [("pncp", {| fonte_total := JInt 57; fonte_recuperados := 1 |})].
Proof.
  assert (H : obter_licitacoes_consolidado (CM := ascii_case)
                http_com_resposta strftime_vazio
                MOCK_LICITACOES None None None None None true false 1 100
              = Responde
                  {| fontes_consultadas :=
                       [("pncp", {| fonte_total := JInt 57;
                                    fonte_recuperados := 1 |})];
                     cons_dados :=
                       map DoPncp (sobreviventes [item_bem_formado; JNull]);
                     total_consolidado := 1 |})
    by reflexivity.
  split; [exact H|].
  apply (proj2 (proj2 (@consolidado_totais ascii_case http_com_resposta
                         strftime_vazio MOCK_LICITACOES None None None None
                         None true false 1 100 _ H)) (or_introl eq_refl)).
Defined.
